(** * OCPP client harness: meter-value simulator and configuration validator

    A shallow embedding of [scripts/simulate_meter_values.py] and
    [scripts/validate_config.py].

    Modelling conventions.
    - Python values that travel through JSON are the inductive [pyval];
      a dict is an association list in insertion order, each key once.
    - Python floats are modelled by exact rationals ([Q]): the rounding
      error, overflow and NaN of binary64 arithmetic are not modelled.
    - The outside world (uuid generator, wall clock, random generator and
      the websocket peer) is an [env] of oracles, indexed by how many
      values of each kind have been consumed so far; the counters and the
      log of what the program did ([trace]) form the [world].
    - A coroutine of a class is a function in the monad [M O], where [O]
      is the record of the instance attributes: it reads the [env],
      threads the object and the [world], and ends with a [result]. *)

From Stdlib Require Import ZArith QArith Qround Qabs String Ascii List Bool Lia Lqa.
From Stdlib Require Import DecimalString.
Import ListNotations.

#[local] Set Warnings "-register-all".

Local Open Scope Z_scope.
Local Open Scope string_scope.

(** ** Python values *)

Inductive pyval : Type :=
| PNone
| PBool (b : bool)
| PInt (z : Z)
| PFloat (q : Q)
| PStr (s : string)
| PList (l : list pyval)
| PDict (d : list (string * pyval)).

(** Numbers handed to the simulator's reporting functions. *)
Inductive num : Type :=
| NInt (z : Z)
| NFloat (q : Q).

Inductive exn : Type :=
| KeyError | IndexError | TypeError | AttributeError
| JSONDecodeError | ConnectionClosed | TimeoutError.

(** How a call ends: it returns, it raises, or it waits for ever on a
    [recv()] that has no timeout; [OutOfFuel] belongs to the model only
    (the bound put on a [while] loop was reached). *)
Inductive result (A : Type) : Type :=
| Ret (a : A)
| Raise (e : exn)
| Blocked
| OutOfFuel.
Arguments Ret {A} a.
Arguments Raise {A} e.
Arguments Blocked {A}.
Arguments OutOfFuel {A}.

(** [bool(v)] *)
Definition truthy (v : pyval) : bool :=
  match v with
  | PNone => false
  | PBool b => b
  | PInt z => negb (z =? 0)%Z
  | PFloat q => negb (Qeq_bool q 0)
  | PStr s => negb (String.eqb s "")
  | PList l => match l with [] => false | _ => true end
  | PDict d => match d with [] => false | _ => true end
  end.

Definition num_truthy (n : num) : bool :=
  match n with
  | NInt z => negb (z =? 0)%Z
  | NFloat q => negb (Qeq_bool q 0)
  end.

(** Truth value of an optional argument whose default is [None]. *)
Definition opt_truthy (a : option num) : bool :=
  match a with
  | None => false
  | Some n => num_truthy n
  end.

Definition num_val (n : num) : pyval :=
  match n with
  | NInt z => PInt z
  | NFloat q => PFloat q
  end.

(** [v == z] for an int literal [z] *)
Definition py_eq_int (v : pyval) (z : Z) : bool :=
  match v with
  | PInt n => (n =? z)%Z
  | PFloat q => Qeq_bool q (inject_Z z)
  | PBool b => (Z.b2z b =? z)%Z
  | _ => false
  end.

(** [v == s] for a str literal [s] *)
Definition py_eq_str (v : pyval) (s : string) : bool :=
  match v with
  | PStr t => String.eqb t s
  | _ => false
  end.

(** [v in [s1, s2, ...]] for a list of str literals *)
Definition py_in_strs (v : pyval) (l : list string) : bool :=
  existsb (py_eq_str v) l.

Fixpoint dict_lookup (d : list (string * pyval)) (k : string) : option pyval :=
  match d with
  | [] => None
  | (k', v) :: d' => if String.eqb k' k then Some v else dict_lookup d' k
  end.

(** [v[i]] for an int literal [i >= 0] *)
Definition getitem_int (v : pyval) (i : nat) : result pyval :=
  match v with
  | PList l =>
      match nth_error l i with
      | Some x => Ret x
      | None => Raise IndexError
      end
  | PStr s =>
      match String.get i s with
      | Some c => Ret (PStr (String c ""))
      | None => Raise IndexError
      end
  | PDict _ => Raise KeyError
  | _ => Raise TypeError
  end.

(** [v[k]] for a str literal [k] *)
Definition getitem_str (v : pyval) (k : string) : result pyval :=
  match v with
  | PDict d =>
      match dict_lookup d k with
      | Some x => Ret x
      | None => Raise KeyError
      end
  | _ => Raise TypeError
  end.

(** [v.get(k, default)] *)
Definition dict_get (v : pyval) (k : string) (default : pyval) : result pyval :=
  match v with
  | PDict d =>
      match dict_lookup d k with
      | Some x => Ret x
      | None => Ret default
      end
  | _ => Raise AttributeError
  end.

(** Sequencing of operations that may raise. *)
Definition rbind {A B} (r : result A) (f : A -> result B) : result B :=
  match r with
  | Ret a => f a
  | Raise x => Raise x
  | Blocked => Blocked
  | OutOfFuel => OutOfFuel
  end.

Declare Scope py_scope.
Delimit Scope py_scope with py.
Notation "x <~ r ;; k" := (rbind r (fun x => k))
  (at level 100, r at next level, right associativity) : py_scope.

(** [response and response[0] == 3], the test every caller makes on what
    a call handed back. *)
Definition is_call_result (response : pyval) : result bool :=
  (if truthy response then
     r0 <~ getitem_int response 0 ;;
     Ret (py_eq_int r0 3)
   else Ret false)%py.

(** [response[2].get("status")] *)
Definition get_status (response : pyval) : result pyval :=
  (r2 <~ getitem_int response 2 ;;
   dict_get r2 "status" PNone)%py.

(** [config_keys = response[2].get("configurationKey", [])] *)
Definition get_config_keys (response : pyval) : result pyval :=
  (r2 <~ getitem_int response 2 ;;
   dict_get r2 "configurationKey" (PList []))%py.

(** [config_keys and config_keys[0].get("value") == expected] *)
Definition first_value_is (config_keys : pyval) (expected : string) : result bool :=
  (if truthy config_keys then
     c0 <~ getitem_int config_keys 0 ;;
     v <~ dict_get c0 "value" PNone ;;
     Ret (py_eq_str v expected)
   else Ret false)%py.

(** [str(z)] for an int *)
Definition str_int (z : Z) : string := NilZero.string_of_int (Z.to_int z).

(** [int(x)] for a float: truncation towards zero *)
Definition py_int (q : Q) : Z := Z.quot (Qnum q) (Zpos (Qden q)).

(** Nearest integer, ties to the even one. *)
Definition round_half_even (q : Q) : Z :=
  let f := Qfloor q in
  match (q - inject_Z f ?= 1 # 2)%Q with
  | Lt => f
  | Gt => f + 1
  | Eq => if Z.even f then f else f + 1
  end.

(** [round(x, 1)] *)
Definition py_round1 (q : Q) : Q := (inject_Z (round_half_even (q * 10)) / 10)%Q.

(** ** The outside world *)

(** What the next [recv()] finds: the connection is gone, nothing arrives
    (ever, or within the timeout when there is one), or a text frame.  A frame is given by what [json.loads] makes
    of it ([None] when it is not JSON). *)
Inductive incoming : Type :=
| Closed
| Silent
| Text (parsed : option pyval).

Inductive event : Type :=
| EvSend (msg : pyval)
| EvSleep (secs : Q).

Record env : Type := {
  uuid4 : nat -> string;       (* str(uuid.uuid4()) *)
  utcnow : nat -> string;      (* datetime.utcnow().isoformat() *)
  time_time : nat -> Q;        (* time.time() *)
  random : nat -> Q;           (* random.random() *)
  send_ok : nat -> bool;       (* does websocket.send succeed *)
  inbox : nat -> incoming;     (* what websocket.recv finds *)
  repr_float : Q -> string     (* str(x) for a float x *)
}.

Record world : Type := {
  n_uuid : nat;
  n_utc : nat;
  n_time : nat;
  n_rand : nat;
  n_send : nat;
  n_recv : nat;
  trace : list event
}.

Definition world0 : world :=
  {| n_uuid := 0; n_utc := 0; n_time := 0; n_rand := 0;
     n_send := 0; n_recv := 0; trace := [] |}.

(** ** The monad of coroutines *)

Definition M (O A : Type) : Type := env -> O -> world -> result A * O * world.

Definition ret {O A} (a : A) : M O A := fun _ o w => (Ret a, o, w).

Definition raise {O A} (x : exn) : M O A := fun _ o w => (Raise x, o, w).

Definition bind {O A B} (m : M O A) (f : A -> M O B) : M O B :=
  fun e o w =>
    match m e o w with
    | (Ret a, o', w') => f a e o' w'
    | (Raise x, o', w') => (Raise x, o', w')
    | (Blocked, o', w') => (Blocked, o', w')
    | (OutOfFuel, o', w') => (OutOfFuel, o', w')
    end.

(** [try: m except Exception: h] *)
Definition try_except {O A} (m : M O A) (h : exn -> M O A) : M O A :=
  fun e o w =>
    match m e o w with
    | (Raise x, o', w') => h x e o' w'
    | r => r
    end.

Definition lift {O A} (r : result A) : M O A := fun _ o w => (r, o, w).

Definition ask_env {O} : M O env := fun e o w => (Ret e, o, w).

Definition get_self {O} : M O O := fun _ o w => (Ret o, o, w).

Definition set_self {O} (o' : O) : M O unit := fun _ _ w => (Ret tt, o', w).

Notation "x <- m ;; k" := (bind m (fun x => k))
  (at level 100, m at next level, right associativity) : py_scope.
Notation "m ;;; k" := (bind m (fun _ => k))
  (at level 100, right associativity) : py_scope.
Local Open Scope py_scope.

Definition log (ev : event) (w : world) : world :=
  {| n_uuid := n_uuid w; n_utc := n_utc w; n_time := n_time w;
     n_rand := n_rand w; n_send := n_send w; n_recv := n_recv w;
     trace := trace w ++ [ev] |}.

(** [str(uuid.uuid4())] *)
Definition new_request_id {O} : M O string :=
  fun e o w =>
    (Ret (uuid4 e (n_uuid w)), o,
     {| n_uuid := S (n_uuid w); n_utc := n_utc w; n_time := n_time w;
        n_rand := n_rand w; n_send := n_send w; n_recv := n_recv w;
        trace := trace w |}).

(** [datetime.utcnow().isoformat() + "Z"] *)
Definition timestamp_now {O} : M O string :=
  fun e o w =>
    (Ret (utcnow e (n_utc w) ++ "Z"), o,
     {| n_uuid := n_uuid w; n_utc := S (n_utc w); n_time := n_time w;
        n_rand := n_rand w; n_send := n_send w; n_recv := n_recv w;
        trace := trace w |}).

(** [time.time()] *)
Definition time_now {O} : M O Q :=
  fun e o w =>
    (Ret (time_time e (n_time w)), o,
     {| n_uuid := n_uuid w; n_utc := n_utc w; n_time := S (n_time w);
        n_rand := n_rand w; n_send := n_send w; n_recv := n_recv w;
        trace := trace w |}).

(** [random.uniform(a, b)], which is [a + (b - a) * random.random()] *)
Definition random_uniform {O} (a b : Q) : M O Q :=
  fun e o w =>
    (Ret (a + (b - a) * random e (n_rand w))%Q, o,
     {| n_uuid := n_uuid w; n_utc := n_utc w; n_time := n_time w;
        n_rand := S (n_rand w); n_send := n_send w; n_recv := n_recv w;
        trace := trace w |}).

(** [await asyncio.sleep(secs)] *)
Definition sleep {O} (secs : Q) : M O unit :=
  fun _ o w => (Ret tt, o, log (EvSleep secs) w).

(** [await self.websocket.send(json.dumps(msg))]: the attempt is logged,
    whether it succeeds or not. *)
Definition ws_send {O} (msg : pyval) : M O unit :=
  fun e o w =>
    let w' :=
      {| n_uuid := n_uuid w; n_utc := n_utc w; n_time := n_time w;
         n_rand := n_rand w; n_send := S (n_send w); n_recv := n_recv w;
         trace := trace w ++ [EvSend msg] |} in
    if send_ok e (n_send w) then (Ret tt, o, w')
    else (Raise ConnectionClosed, o, w').

Definition take_incoming (w : world) : world :=
  {| n_uuid := n_uuid w; n_utc := n_utc w; n_time := n_time w;
     n_rand := n_rand w; n_send := n_send w; n_recv := S (n_recv w);
     trace := trace w |}.

(** [await self.websocket.recv()] *)
Definition ws_recv {O} : M O (option pyval) :=
  fun e o w =>
    match inbox e (n_recv w) with
    | Closed => (Raise ConnectionClosed, o, take_incoming w)
    | Silent => (Blocked, o, w)
    | Text t => (Ret t, o, take_incoming w)
    end.

(** [await asyncio.wait_for(self.websocket.recv(), timeout=...)] *)
Definition ws_recv_wait_for {O} : M O (option pyval) :=
  fun e o w =>
    match inbox e (n_recv w) with
    | Closed => (Raise ConnectionClosed, o, take_incoming w)
    | Silent => (Raise TimeoutError, o, take_incoming w)
    | Text t => (Ret t, o, take_incoming w)
    end.

(** [json.loads(text)] *)
Definition json_loads {O} (text : option pyval) : M O pyval :=
  match text with
  | Some v => ret v
  | None => raise JSONDecodeError
  end.

(** [str(n)] for a number: decimal digits for an int, Python's float
    formatting (a parameter of the model) for a float. *)
Definition py_str (e : env) (n : num) : string :=
  match n with
  | NInt z => str_int z
  | NFloat q => repr_float e q
  end.

(** ** simulate_meter_values.py: class MeterValueSimulator *)

Record simulator : Type := { transaction_id : pyval }.

(** [__init__]: [self.transaction_id = None] *)
Definition simulator_init : simulator := {| transaction_id := PNone |}.

Definition start_transaction : M simulator bool :=
  request_id <- new_request_id ;;
  ts <- timestamp_now ;;
  let message :=
    PList [PInt 2; PStr request_id; PStr "StartTransaction";
           PDict [("connectorId", PInt 1);
                  ("idTag", PStr "TEST-TAG");
                  ("meterStart", PInt 1000);
                  ("timestamp", PStr ts)]] in
  ws_send message ;;;
  response <- ws_recv ;;
  response_data <- json_loads response ;;
  r0 <- lift (getitem_int response_data 0) ;;
  if py_eq_int r0 3 then
    r2 <- lift (getitem_int response_data 2) ;;
    tid <- lift (getitem_str r2 "transactionId") ;;
    set_self {| transaction_id := tid |} ;;;
    ret true
  else ret false.

Definition sampled (value measurand unit : string) : pyval :=
  PDict [("value", PStr value); ("measurand", PStr measurand); ("unit", PStr unit)].

(** The list [sampled_values] that [send_meter_values] builds before it
    touches the connection. *)
Definition sampled_values_of (str : num -> string)
    (energy_wh power_w : num) (current_a voltage_v temperature_c : option num)
    : list pyval :=
  let sampled_values :=
    [sampled (str energy_wh) "Energy.Active.Import.Register" "Wh";
     sampled (str power_w) "Power.Active.Import" "W"] in
  let sampled_values :=
    match current_a with
    | Some c =>
        if num_truthy c
        then (sampled_values ++ [sampled (str c) "Current.Import" "A"])%list
        else sampled_values
    | None => sampled_values
    end in
  let sampled_values :=
    match voltage_v with
    | Some v =>
        if num_truthy v
        then (sampled_values ++ [sampled (str v) "Voltage" "V"])%list
        else sampled_values
    | None => sampled_values
    end in
  match temperature_c with
  | Some t =>
      if num_truthy t
      then (sampled_values ++ [sampled (str t) "Temperature" "Celsius"])%list
      else sampled_values
  | None => sampled_values
  end.

(** The dict [message_data], with [transactionId] added last when the
    stored id is truthy. *)
Definition message_data_of (ts : string) (sampled_values : list pyval)
    (tid : pyval) : pyval :=
  let message_data :=
    [("connectorId", PInt 1);
     ("meterValue",
      PList [PDict [("timestamp", PStr ts);
                    ("sampledValue", PList sampled_values)]])] in
  if truthy tid
  then PDict (message_data ++ [("transactionId", tid)])%list
  else PDict message_data.

Definition send_meter_values (energy_wh power_w : num)
    (current_a voltage_v temperature_c : option num) : M simulator unit :=
  request_id <- new_request_id ;;
  e <- ask_env ;;
  let sampled_values :=
    sampled_values_of (py_str e) energy_wh power_w current_a voltage_v temperature_c in
  ts <- timestamp_now ;;
  self <- get_self ;;
  let message_data := message_data_of ts sampled_values (transaction_id self) in
  let message := PList [PInt 2; PStr request_id; PStr "MeterValues"; message_data] in
  ws_send message ;;;
  _ <- ws_recv ;;
  ret tt.

Definition stop_transaction (meter_stop : num) : M simulator unit :=
  self <- get_self ;;
  if negb (truthy (transaction_id self)) then ret tt
  else
    request_id <- new_request_id ;;
    ts <- timestamp_now ;;
    let message :=
      PList [PInt 2; PStr request_id; PStr "StopTransaction";
             PDict [("transactionId", transaction_id self);
                    ("meterStop", num_val meter_stop);
                    ("timestamp", PStr ts)]] in
    ws_send message ;;;
    _ <- ws_recv ;;
    ret tt.

Definition base_power : Q := 7400.
Definition voltage : Q := 230.

(** One pass through the body of the [while] loop of
    [simulate_charging_session]; it returns the new [energy_wh]. *)
Definition charging_tick (interval_seconds energy_wh : Q) : M simulator Q :=
  power_variation <- random_uniform (-500) 500 ;;
  let power_w := (base_power + power_variation)%Q in
  let energy_increment := ((power_w * interval_seconds) / 3600)%Q in
  let energy_wh := (energy_wh + energy_increment)%Q in
  let current_a := (power_w / voltage)%Q in
  t <- random_uniform (-5) 10 ;;
  let temperature_c := (25 + t)%Q in
  v <- random_uniform (-5) 5 ;;
  let voltage_v := (voltage + v)%Q in
  send_meter_values
    (NInt (py_int energy_wh))
    (NInt (py_int power_w))
    (Some (NFloat (py_round1 current_a)))
    (Some (NFloat (py_round1 voltage_v)))
    (Some (NFloat (py_round1 temperature_c))) ;;;
  sleep interval_seconds ;;;
  ret energy_wh.

(** [while (time.time() - start_time) < duration_seconds: ...] *)
Fixpoint charging_loop (fuel : nat)
    (start_time duration_seconds interval_seconds energy_wh : Q) : M simulator Q :=
  match fuel with
  | O => lift OutOfFuel
  | S fuel' =>
      now <- time_now ;;
      if negb (Qle_bool duration_seconds (now - start_time))
      then
        energy_wh' <- charging_tick interval_seconds energy_wh ;;
        charging_loop fuel' start_time duration_seconds interval_seconds energy_wh'
      else ret energy_wh
  end.

Definition simulate_charging_session (fuel : nat)
    (duration_seconds interval_seconds : Q) : M simulator unit :=
  let energy_wh := 1000%Q in
  _ <- start_transaction ;;
  start_time <- time_now ;;
  energy_wh <- charging_loop fuel start_time duration_seconds interval_seconds energy_wh ;;
  stop_transaction (NInt (py_int energy_wh)).

(** ** validate_config.py: class ConfigurationValidator *)

Record validator : Type := { test_results : list (string * bool) }.

(** [__init__]: [self.test_results = []] *)
Definition validator_init : validator := {| test_results := [] |}.

(** [self.test_results.append((name, passed))] *)
Definition append_result (name : string) (passed : bool) : M validator unit :=
  fun _ o w =>
    (Ret tt, {| test_results := (test_results o ++ [(name, passed)])%list |}, w).

Definition send_get_configuration (keys : option (list string)) : M validator pyval :=
  request_id <- new_request_id ;;
  let payload :=
    match keys with
    | Some (k :: ks) => PDict [("key", PList (map PStr (k :: ks)))]
    | _ => PDict []
    end in
  let message := PList [PInt 2; PStr request_id; PStr "GetConfiguration"; payload] in
  try_except
    (ws_send message ;;;
     response <- ws_recv_wait_for ;;
     json_loads response)
    (fun _ => ret (PDict [])).

Definition send_change_configuration (key : string) (value : pyval) : M validator pyval :=
  request_id <- new_request_id ;;
  let message :=
    PList [PInt 2; PStr request_id; PStr "ChangeConfiguration";
           PDict [("key", PStr key); ("value", value)]] in
  try_except
    (ws_send message ;;;
     response <- ws_recv_wait_for ;;
     json_loads response)
    (fun _ => ret (PDict [])).

Definition test_change_configuration : M validator bool :=
  response <- send_get_configuration (Some ["HeartbeatInterval"]) ;;
  ok <- lift (is_call_result response) ;;
  original_value <-
    (if ok then
       config_keys <- lift (get_config_keys response) ;;
       if truthy config_keys then
         c0 <- lift (getitem_int config_keys 0) ;;
         lift (dict_get c0 "value" PNone)
       else ret PNone
     else ret PNone) ;;
  let new_value := "900" in
  let failed :=
    append_result "Change configuration" false ;;;
    ret false in
  response <- send_change_configuration "HeartbeatInterval" (PStr new_value) ;;
  ok <- lift (is_call_result response) ;;
  if ok then
    status <- lift (get_status response) ;;
    if py_in_strs status ["Accepted"; "RebootRequired"] then
      sleep (1 # 2) ;;;
      response <- send_get_configuration (Some ["HeartbeatInterval"]) ;;
      ok <- lift (is_call_result response) ;;
      if ok then
        config_keys <- lift (get_config_keys response) ;;
        same <- lift (first_value_is config_keys new_value) ;;
        if same then
          (if truthy original_value
           then _ <- send_change_configuration "HeartbeatInterval" original_value ;; ret tt
           else ret tt) ;;;
          append_result "Change configuration" true ;;;
          ret true
        else ret false
      else failed
    else ret false
  else failed.

Definition test_readonly_rejection : M validator bool :=
  response <- send_change_configuration "ChargeProfileMaxStackLevel" (PStr "20") ;;
  ok <- lift (is_call_result response) ;;
  if ok then
    status <- lift (get_status response) ;;
    if py_eq_str status "Rejected" then
      append_result "Read-only rejection" true ;;;
      ret true
    else
      append_result "Read-only rejection" false ;;;
      ret false
  else
    append_result "Read-only rejection" false ;;;
    ret false.

Definition test_cases : list (string * string * string) :=
  [("HeartbeatInterval", "not-a-number", "Invalid integer");
   ("LightIntensity", "150", "Out of range (0-100)");
   ("LocalAuthorizeOffline", "yes", "Invalid boolean");
   ("UnknownKey", "value", "Unknown key")].

(** [for key, value, description in test_cases: ...], threading
    [all_passed]. *)
Fixpoint invalid_values_loop (cases : list (string * string * string))
    (all_passed : bool) : M validator bool :=
  match cases with
  | [] => ret all_passed
  | (key, value, _) :: rest =>
      response <- send_change_configuration key (PStr value) ;;
      ok <- lift (is_call_result response) ;;
      if ok then
        status <- lift (get_status response) ;;
        let expected_statuses := ["Rejected"; "NotSupported"] in
        if py_in_strs status expected_statuses
        then invalid_values_loop rest all_passed
        else invalid_values_loop rest false
      else invalid_values_loop rest false
  end.

Definition test_invalid_values : M validator bool :=
  all_passed <- invalid_values_loop test_cases true ;;
  append_result "Invalid value rejection" all_passed ;;;
  ret all_passed.

Definition test_persistence : M validator bool :=
  let test_key := "MeterValueSampleInterval" in
  let test_value := "45" in
  response <- send_change_configuration test_key (PStr test_value) ;;
  ok <- lift (is_call_result response) ;;
  accepted <-
    (if ok then
       status <- lift (get_status response) ;;
       ret (py_in_strs status ["Accepted"; "RebootRequired"])
     else ret false) ;;
  if negb accepted then ret false
  else
    sleep 1 ;;;
    response <- send_get_configuration (Some [test_key]) ;;
    ok <- lift (is_call_result response) ;;
    if ok then
      config_keys <- lift (get_config_keys response) ;;
      same <- lift (first_value_is config_keys test_value) ;;
      if same then
        append_result "Configuration persistence" true ;;;
        ret true
      else ret false
    else ret false.

(** ** Vocabulary of the statements *)

(** The call envelope [[2, id, action, payload]]. *)
Definition call_frame (id action : string) (payload : pyval) : pyval :=
  PList [PInt 2; PStr id; PStr action; payload].

(** The exchange started in world [w] goes through and is answered by the
    JSON frame [frame]. *)
Definition answered (e : env) (w : world) (frame : pyval) : Prop :=
  send_ok e (n_send w) = true /\ inbox e (n_recv w) = Text (Some frame).

(** The world after a validator call: one id drawn, one frame sent, one
    frame read. *)
Definition after_call (msg : pyval) (w : world) : world :=
  {| n_uuid := S (n_uuid w); n_utc := n_utc w; n_time := n_time w;
     n_rand := n_rand w; n_send := S (n_send w); n_recv := S (n_recv w);
     trace := trace w ++ [EvSend msg] |}.

(** The world after a simulator call, which also reads the clock for its
    timestamp. *)
Definition after_stamped_call (msg : pyval) (w : world) : world :=
  {| n_uuid := S (n_uuid w); n_utc := S (n_utc w); n_time := n_time w;
     n_rand := n_rand w; n_send := S (n_send w); n_recv := S (n_recv w);
     trace := trace w ++ [EvSend msg] |}.

(** [frame] is a result envelope [[3, id, {...}]]: first element equal to
    3, third element a dict. *)
Definition result_frame (frame : pyval) (payload : list (string * pyval)) : Prop :=
  exists x id rest,
    frame = PList (x :: id :: PDict payload :: rest) /\ py_eq_int x 3 = true.

(** [frame] is a result envelope whose payload has ["status": s]. *)
Definition result_with_status (frame : pyval) (s : string) : Prop :=
  exists payload,
    result_frame frame payload /\ dict_lookup payload "status" = Some (PStr s).

(** [frame] is a result envelope whose first [configurationKey] entry has
    ["value": v]. *)
Definition result_with_first_value (frame : pyval) (v : string) : Prop :=
  exists payload entry entries,
    result_frame frame payload /\
    dict_lookup payload "configurationKey" = Some (PList (PDict entry :: entries)) /\
    dict_lookup entry "value" = Some (PStr v).

(** The sampled-value list [l] has an entry for measurand [m]. *)
Definition has_measurand (l : list pyval) (m : string) : Prop :=
  exists d, In (PDict d) l /\ dict_lookup d "measurand" = Some (PStr m).

(** The next exchanges, starting with send number [ns] and receive number
    [nr], all go through and are answered by [frames], in this order. *)
Fixpoint answers (e : env) (ns nr : nat) (frames : list pyval) : Prop :=
  match frames with
  | [] => True
  | f :: fs =>
      send_ok e ns = true /\ inbox e nr = Text (Some f) /\ answers e (S ns) (S nr) fs
  end.

(** The world after one ChangeConfiguration call per test case. *)
Fixpoint after_changes (e : env) (cases : list (string * string * string))
    (w : world) : world :=
  match cases with
  | [] => w
  | (key, value, _) :: rest =>
      after_changes e rest
        (after_call (call_frame (uuid4 e (n_uuid w)) "ChangeConfiguration"
                       (PDict [("key", PStr key); ("value", PStr value)])) w)
  end.

(** What a check makes of one response when it expects one of the
    statuses [expected]. *)
Definition status_verdict (expected : list string) (response : pyval) : result bool :=
  (ok <~ is_call_result response ;;
   if ok then
     status <~ get_status response ;;
     Ret (py_in_strs status expected)
   else Ret false)%py.

(** The verdicts on a sequence of responses, accumulated as the loop of
    [test_invalid_values] does. *)
Fixpoint all_verdicts (expected : list string) (frames : list pyval)
    (all_passed : bool) : result bool :=
  match frames with
  | [] => Ret all_passed
  | f :: fs =>
      (b <~ status_verdict expected f ;;
       all_verdicts expected fs (all_passed && b))%py
  end.

(** ** Concrete scenarios *)

(** A float printed with one decimal: an instance of the formatting
    parameter, exact on the values that [round(x, 1)] produces. *)
Definition repr_decimal1 (q : Q) : string :=
  let k := round_half_even (q * 10) in
  (if (k <? 0)%Z then "-" else "") ++
  str_int (Z.abs k / 10) ++ "." ++ str_int (Z.abs k mod 10).

(** A world in which every send succeeds, the server answers with
    [frames] in turn and then falls silent, the clock advances five
    seconds between two readings and the random generator always returns
    [r]. *)
Definition scripted (r : Q) (frames : list pyval) : env :=
  {| uuid4 := fun n => "call-" ++ str_int (Z.of_nat n);
     utcnow := fun _ => "2024-01-01T00:00:00";
     time_time := fun n => inject_Z (5 * Z.of_nat n);
     random := fun _ => r;
     send_ok := fun _ => true;
     inbox := fun n =>
       match nth_error frames n with
       | Some f => Text (Some f)
       | None => Silent
       end;
     repr_float := repr_decimal1 |}.

(** The result envelope [[3, id, {"status": status}]]. *)
Definition status_frame (id status : string) : pyval :=
  PList [PInt 3; PStr id; PDict [("status", PStr status)]].

(** The result envelope of a GetConfiguration that reports one key. *)
Definition config_frame (id key value : string) : pyval :=
  PList [PInt 3; PStr id;
         PDict [("configurationKey",
                 PList [PDict [("key", PStr key); ("readonly", PBool false);
                               ("value", PStr value)]])]].

(** The MeterValues call that [send_meter_values] makes from object [o]
    in world [w]. *)
Definition meter_values_frame (e : env) (o : simulator) (w : world)
    (energy_wh power_w : num) (current_a voltage_v temperature_c : option num)
    : pyval :=
  call_frame (uuid4 e (n_uuid w)) "MeterValues"
    (message_data_of (utcnow e (n_utc w) ++ "Z")
       (sampled_values_of (py_str e) energy_wh power_w
          current_a voltage_v temperature_c)
       (transaction_id o)).

(** Decision procedure for [has_measurand]. *)
Definition has_measurandb (l : list pyval) (m : string) : bool :=
  existsb
    (fun x =>
       match x with
       | PDict d =>
           match dict_lookup d "measurand" with
           | Some (PStr m') => String.eqb m' m
           | _ => false
           end
       | _ => false
       end) l.

(** The StartTransaction call made in world [w]. *)
Definition start_frame (e : env) (w : world) : pyval :=
  call_frame (uuid4 e (n_uuid w)) "StartTransaction"
    (PDict [("connectorId", PInt 1);
            ("idTag", PStr "TEST-TAG");
            ("meterStart", PInt 1000);
            ("timestamp", PStr (utcnow e (n_utc w) ++ "Z"))]).

(** The StopTransaction call made from object [o] in world [w]. *)
Definition stop_frame (e : env) (o : simulator) (w : world) (meter_stop : num) : pyval :=
  call_frame (uuid4 e (n_uuid w)) "StopTransaction"
    (PDict [("transactionId", transaction_id o);
            ("meterStop", num_val meter_stop);
            ("timestamp", PStr (utcnow e (n_utc w) ++ "Z"))]).

(** The second element of an envelope: its id. *)
Definition frame_id (frame : pyval) : option pyval :=
  match frame with
  | PList (_ :: id :: _) => Some id
  | _ => None
  end.

(** The result envelope [[3, id, {"transactionId": tid}]]. *)
Definition started_frame (id : string) (tid : pyval) : pyval :=
  PList [PInt 3; PStr id; PDict [("transactionId", tid)]].

(** [start_transaction()] followed by [stop_transaction(meter_stop)]. *)
Definition start_then_stop (meter_stop : num) : M simulator bool :=
  started <- start_transaction ;;
  stop_transaction meter_stop ;;;
  ret started.

(** ** Vocabulary of the energy statements *)


(** The power reading of the tick that draws its first random number at
    position [nr] of the generator. *)
Definition power_drawn (e : env) (nr : nat) : Q :=
  (base_power + (-500 + (500 - -500) * random e nr))%Q.

(** The value of [energy_wh] after [n] ticks, the first of which draws its
    random numbers from position [nr] on; every tick draws three. *)
Fixpoint energy_after (e : env) (interval_seconds : Q) (nr : nat) (energy_wh : Q)
    (n : nat) : Q :=
  match n with
  | O => energy_wh
  | S k =>
      energy_after e interval_seconds (3 + nr)
        (energy_wh + (power_drawn e nr * interval_seconds) / 3600)%Q k
  end.


(** The world after one tick made from object [o] in world [w] with
    [energy_wh] accumulated so far: three random numbers drawn, one
    MeterValues exchange, one sleep. *)
Definition after_tick (e : env) (o : simulator) (w : world)
    (interval_seconds energy_wh : Q) : world :=
  let power_w := power_drawn e (n_rand w) in
  let energy_wh' := (energy_wh + (power_w * interval_seconds) / 3600)%Q in
  let temperature_c := (25 + (-5 + (10 - -5) * random e (S (n_rand w))))%Q in
  let voltage_v := (voltage + (-5 + (5 - -5) * random e (S (S (n_rand w)))))%Q in
  let w3 :=
    {| n_uuid := n_uuid w; n_utc := n_utc w; n_time := n_time w;
       n_rand := S (S (S (n_rand w))); n_send := n_send w; n_recv := n_recv w;
       trace := trace w |} in
  log (EvSleep interval_seconds)
    (after_stamped_call
       (meter_values_frame e o w3
          (NInt (py_int energy_wh'))
          (NInt (py_int power_w))
          (Some (NFloat (py_round1 (power_w / voltage))))
          (Some (NFloat (py_round1 voltage_v)))
          (Some (NFloat (py_round1 temperature_c))))
       w3).

(** A world in which every send succeeds and the server answers every
    call with [frame]; clock and random generator as in [scripted]. *)
Definition steady (r : Q) (frame : pyval) : env :=
  {| uuid4 := fun n => "call-" ++ str_int (Z.of_nat n);
     utcnow := fun _ => "2024-01-01T00:00:00";
     time_time := fun n => inject_Z (5 * Z.of_nat n);
     random := fun _ => r;
     send_ok := fun _ => true;
     inbox := fun _ => Text (Some frame);
     repr_float := repr_decimal1 |}.

(** ** Further Python primitives *)

(** [len(v)] *)
Definition py_len (v : pyval) : result Z :=
  match v with
  | PList l => Ret (Z.of_nat (length l))
  | PDict d => Ret (Z.of_nat (length d))
  | PStr s => Ret (Z.of_nat (String.length s))
  | _ => Raise TypeError
  end.

Fixpoint chars (s : string) : list pyval :=
  match s with
  | EmptyString => []
  | String c s' => PStr (String c "") :: chars s'
  end.

(** The values that [for x in v] goes through. *)
Definition py_iter (v : pyval) : result (list pyval) :=
  match v with
  | PList l => Ret l
  | PDict d => Ret (map (fun kv => PStr (fst kv)) d)
  | PStr s => Ret (chars s)
  | _ => Raise TypeError
  end.

(** Is [sub] a substring of [s] *)
Definition is_substring (sub s : string) : bool :=
  match String.index 0 sub s with
  | Some _ => true
  | None => false
  end.

(** [s in v] for a str literal [s] *)
Definition py_contains_str (v : pyval) (s : string) : result bool :=
  match v with
  | PList l => Ret (existsb (fun x => py_eq_str x s) l)
  | PDict d => Ret (existsb (fun kv => String.eqb (fst kv) s) d)
  | PStr t => Ret (is_substring s t)
  | _ => Raise TypeError
  end.

(** [[f(x) for x in l]], stopping at the first element on which [f]
    raises. *)
Fixpoint map_result {A B} (f : A -> result B) (l : list A) : result (list B) :=
  match l with
  | [] => Ret []
  | x :: l' =>
      (y <~ f x ;;
       ys <~ map_result f l' ;;
       Ret (y :: ys))%py
  end.

(** ** validate_config.py: the remaining checks *)

Definition essential_keys : list string :=
  ["HeartbeatInterval"; "MeterValueSampleInterval"; "LocalAuthorizeOffline";
   "ChargeProfileMaxStackLevel"].

Definition readonly_keys : list string :=
  ["ChargeProfileMaxStackLevel"; "SupportedFeatureProfiles"].

(** [for key in essential_keys: if key in key_names: ... else: return False]:
    [true] when the loop runs to its end. *)
Fixpoint essential_present (keys : list string) (key_names : list pyval) : bool :=
  match keys with
  | [] => true
  | key :: rest =>
      if existsb (fun v => py_eq_str v key) key_names
      then essential_present rest key_names
      else false
  end.

(** [for config_key in config_keys: if config_key["key"] in readonly_keys:
    if config_key.get("readonly", False): ... else: return False]:
    [Ret true] when the loop runs to its end. *)
Fixpoint readonly_flagged (entries : list pyval) : result bool :=
  match entries with
  | [] => Ret true
  | config_key :: rest =>
      (k <~ getitem_str config_key "key" ;;
       if py_in_strs k readonly_keys then
         flag <~ dict_get config_key "readonly" (PBool false) ;;
         if truthy flag then readonly_flagged rest else Ret false
       else readonly_flagged rest)%py
  end.

Definition test_get_all_configuration : M validator bool :=
  response <- send_get_configuration None ;;
  ok <- lift (is_call_result response) ;;
  if ok then
    config_keys <- lift (get_config_keys response) ;;
    n <- lift (py_len config_keys) ;;
    if (n <? 10)%Z then ret false
    else
      entries <- lift (py_iter config_keys) ;;
      key_names <- lift (map_result (fun k => getitem_str k "key") entries) ;;
      if negb (essential_present essential_keys key_names) then ret false
      else
        flagged <- lift (readonly_flagged entries) ;;
        if negb flagged then ret false
        else
          append_result "Get all configuration" true ;;;
          ret true
  else
    append_result "Get all configuration" false ;;;
    ret false.

Definition test_get_specific_keys : M validator bool :=
  response <-
    send_get_configuration
      (Some ["HeartbeatInterval"; "UnknownKey"; "MeterValueSampleInterval"]) ;;
  ok <- lift (is_call_result response) ;;
  if ok then
    config_keys <- lift (get_config_keys response) ;;
    r2 <- lift (getitem_int response 2) ;;
    unknown_keys <- lift (dict_get r2 "unknownKey" (PList [])) ;;
    n_known <- lift (py_len config_keys) ;;
    _ <- lift (py_len unknown_keys) ;;
    if negb (n_known =? 2)%Z then ret false
    else
      found <- lift (py_contains_str unknown_keys "UnknownKey") ;;
      if negb found then ret false
      else
        append_result "Get specific keys" true ;;;
        ret true
  else
    append_result "Get specific keys" false ;;;
    ret false.

Definition test_csv_validation : M validator bool :=
  response <-
    send_change_configuration "MeterValuesSampledData"
      (PStr "Energy.Active.Import.Register,Power.Active.Import") ;;
  ok <- lift (is_call_result response) ;;
  if ok then
    status <- lift (get_status response) ;;
    if py_in_strs status ["Accepted"; "RebootRequired"] then
      response <-
        send_change_configuration "MeterValuesSampledData"
          (PStr "Energy.Active.Import.Register,InvalidMeasurand") ;;
      ok <- lift (is_call_result response) ;;
      (if ok then _ <- lift (get_status response) ;; ret tt else ret tt) ;;;
      append_result "CSV validation" true ;;;
      ret true
    else ret false
  else ret false.

Definition test_reboot_required_keys : M validator bool :=
  response <- send_change_configuration "WebSocketPingInterval" (PStr "120") ;;
  ok <- lift (is_call_result response) ;;
  if ok then
    status <- lift (get_status response) ;;
    if py_eq_str status "RebootRequired" then
      append_result "Reboot required" true ;;;
      ret true
    else if py_eq_str status "Accepted" then
      append_result "Reboot required" true ;;;
      ret true
    else
      append_result "Reboot required" false ;;;
      ret false
  else
    append_result "Reboot required" false ;;;
    ret false.

(** The checks in the order in which [run_all_tests] awaits them. *)
Definition tests : list (M validator bool) :=
  [test_get_all_configuration;
   test_get_specific_keys;
   test_change_configuration;
   test_readonly_rejection;
   test_invalid_values;
   test_csv_validation;
   test_reboot_required_keys;
   test_persistence].



(** ** simulate_meter_values.py: the remaining coroutines *)

Definition send_boot_notification : M simulator unit :=
  request_id <- new_request_id ;;
  let message :=
    PList [PInt 2; PStr request_id; PStr "BootNotification";
           PDict [("chargePointModel", PStr "Simulator");
                  ("chargePointVendor", PStr "Test")]] in
  ws_send message ;;;
  _ <- ws_recv ;;
  ret tt.

(** [run_tests], from the point where the connection is open; the
    session's loop is bounded by [fuel]. *)
Definition run_tests (fuel : nat) : M simulator unit :=
  send_boot_notification ;;;
  send_meter_values (NInt 5000) (NInt 3700)
    (Some (NInt 16)) (Some (NInt 230)) (Some (NInt 25)) ;;;
  simulate_charging_session fuel 30 5 ;;;
  send_meter_values (NInt 10000) (NInt 55000)
    (Some (NInt 240)) (Some (NInt 230)) None.

(** What a check has done to the record of results by the time it ends:
    a pass is recorded under the check's name, a failure is recorded
    under that name or not at all, and nothing is recorded before an
    exception; a check always ends. *)
Definition records (name : string) (o : validator)
    (run : result bool * validator * world) : Prop :=
  match run with
  | (Ret true, o', _) => test_results o' = (test_results o ++ [(name, true)])%list
  | (Ret false, o', _) =>
      test_results o' = test_results o \/
      test_results o' = (test_results o ++ [(name, false)])%list
  | (Raise _, o', _) => test_results o' = test_results o
  | (Blocked, _, _) => False
  | (OutOfFuel, _, _) => False
  end.

(** The names under which the checks record, in the order of [tests]. *)
Definition test_names : list string :=
  ["Get all configuration"; "Get specific keys"; "Change configuration";
   "Read-only rejection"; "Invalid value rejection"; "CSV validation";
   "Reboot required"; "Configuration persistence"].

(** An operation on values returns or raises; it neither blocks nor runs
    out of fuel. *)
Definition ends {A} (r : result A) : Prop :=
  match r with
  | Blocked => False
  | OutOfFuel => False
  | _ => True
  end.

(** One entry of a configurationKey list. *)
Definition config_entry (key value : string) (readonly : bool) : list (string * pyval) :=
  [("key", PStr key); ("readonly", PBool readonly); ("value", PStr value)].

(** A listing of ten keys, the two read-only ones flagged. *)
Definition full_listing : list (list (string * pyval)) :=
  [config_entry "HeartbeatInterval" "300" false;
   config_entry "MeterValueSampleInterval" "60" false;
   config_entry "LocalAuthorizeOffline" "true" false;
   config_entry "ChargeProfileMaxStackLevel" "10" true;
   config_entry "SupportedFeatureProfiles" "Core" true;
   config_entry "LightIntensity" "50" false;
   config_entry "WebSocketPingInterval" "60" false;
   config_entry "MeterValuesSampledData" "Energy.Active.Import.Register" false;
   config_entry "ConnectionTimeOut" "30" false;
   config_entry "NumberOfConnectors" "1" true].

(** The result envelope of a GetConfiguration with known and unknown
    keys. *)
Definition listing_frame (id : string) (known : list (list (string * pyval)))
    (unknown : list string) : pyval :=
  PList [PInt 3; PStr id;
         PDict [("configurationKey", PList (map PDict known));
                ("unknownKey", PList (map PStr unknown))]].

(** The BootNotification call made in world [w]. *)
Definition boot_frame (e : env) (w : world) : pyval :=
  call_frame (uuid4 e (n_uuid w)) "BootNotification"
    (PDict [("chargePointModel", PStr "Simulator");
            ("chargePointVendor", PStr "Test")]).

(** The world once a frame has been sent and its sender waits for an
    answer: one id drawn, [stamps] timestamps read, nothing received. *)
Definition waiting (stamps : nat) (msg : pyval) (w : world) : world :=
  {| n_uuid := S (n_uuid w); n_utc := stamps + n_utc w; n_time := n_time w;
     n_rand := n_rand w; n_send := S (n_send w); n_recv := n_recv w;
     trace := trace w ++ [EvSend msg] |}.

(** [stop_transaction(first)] followed by [stop_transaction(second)]. *)
Definition stop_twice (first second : num) : M simulator unit :=
  stop_transaction first ;;;
  stop_transaction second.

(** [stop_transaction(meter_stop)] followed by a [send_meter_values]. *)
Definition stop_then_report (meter_stop energy_wh power_w : num)
    (current_a voltage_v temperature_c : option num) : M simulator unit :=
  stop_transaction meter_stop ;;;
  send_meter_values energy_wh power_w current_a voltage_v temperature_c.

(** The world after one reading of [time.time()]. *)
Definition clock_read (w : world) : world :=
  {| n_uuid := n_uuid w; n_utc := n_utc w; n_time := S (n_time w);
     n_rand := n_rand w; n_send := n_send w; n_recv := n_recv w;
     trace := trace w |}.

(** The world after [n] passes through the loop, each made of one reading
    of the clock and one tick. *)
Fixpoint after_ticks (e : env) (o : simulator) (interval_seconds : Q) (n : nat)
    (energy_wh : Q) (w : world) : world :=
  match n with
  | O => w
  | S k =>
      after_ticks e o interval_seconds k
        (energy_wh + (power_drawn e (n_rand w) * interval_seconds) / 3600)%Q
        (after_tick e o (clock_read w) interval_seconds energy_wh)
  end.

(** The action of a call frame that is being sent. *)
Definition action_of (ev : event) : option string :=
  match ev with
  | EvSend (PList [PInt 2; PStr _; PStr a; PDict _]) => Some a
  | _ => None
  end.

(** Is the event the sending of a call frame for [action] *)
Definition sends_action (action : string) (ev : event) : bool :=
  match action_of ev with
  | Some a => String.eqb a action
  | None => false
  end.

Definition is_sleep (ev : event) : bool :=
  match ev with
  | EvSleep _ => true
  | EvSend _ => false
  end.

(** ** Results about the Python primitives *)

Lemma is_call_result_true (r : pyval) :
  is_call_result r = Ret true <->
  ((exists x rest, r = PList (x :: rest) /\ py_eq_int x 3 = true)).
Proof.
  unfold is_call_result. split.
  - destruct r as [| b | z | q | s | l | d]; cbn; try discriminate.
    + destruct b; cbn; discriminate.
    + destruct (negb (z =? 0)%Z); cbn; discriminate.
    + destruct (negb (Qeq_bool q 0)); cbn; discriminate.
    + destruct s as [| c s]; cbn; discriminate.
    + destruct l as [| x l]; cbn; try discriminate.
      intros H. exists x, l. split; [reflexivity | congruence].
    + destruct d; cbn; discriminate.
  - intros (x & rest & -> & Hx). cbn. now rewrite Hx.
Qed.

Lemma py_eq_str_true (v : pyval) (s : string) :
  py_eq_str v s = true <-> v = PStr s.
Proof.
  destruct v; cbn; try (split; [discriminate | intros H; discriminate H]).
  rewrite String.eqb_eq. split; [intros -> | intros [= ->]]; reflexivity.
Qed.

Lemma get_status_ret (r st : pyval) :
  is_call_result r = Ret true ->
  (get_status r = Ret st <->
   exists payload,
     result_frame r payload /\
     st = match dict_lookup payload "status" with Some v => v | None => PNone end).
Proof.
  intros Hr. apply is_call_result_true in Hr as (x & rest & -> & Hx).
  unfold get_status, result_frame. cbn. split.
  - destruct rest as [| id [| p rest]]; cbn; try discriminate.
    destruct p as [| | | | | | d]; cbn; try discriminate.
    intros H. exists d. split.
    + now exists x, id, rest.
    + destruct (dict_lookup d "status"); congruence.
  - intros (payload & (x' & id & rest' & [= -> ->] & _) & ->). cbn.
    now destruct (dict_lookup payload "status").
Qed.

Lemma result_with_status_iff (r : pyval) (s : string) :
  result_with_status r s <->
  is_call_result r = Ret true /\
  exists st, get_status r = Ret st /\ py_eq_str st s = true.
Proof.
  split.
  - intros (payload & Hf & Hs).
    assert (Hc : is_call_result r = Ret true).
    { destruct Hf as (x & id & rest & -> & Hx).
      apply is_call_result_true. now exists x, (id :: PDict payload :: rest). }
    split; [exact Hc |]. exists (PStr s). split.
    + apply (get_status_ret _ _ Hc). exists payload. now rewrite Hs.
    + now apply py_eq_str_true.
  - intros (Hc & st & Hst & Heq).
    apply (get_status_ret _ _ Hc) in Hst as (payload & Hf & ->).
    apply py_eq_str_true in Heq. exists payload. split; [exact Hf |].
    destruct (dict_lookup payload "status"); congruence.
Qed.

Lemma send_change_configuration_answered
    (e : env) (o : validator) (w : world) (key : string) (value frame : pyval) :
  answered e w frame ->
  send_change_configuration key value e o w =
  (Ret frame, o,
   after_call (call_frame (uuid4 e (n_uuid w)) "ChangeConfiguration"
                 (PDict [("key", PStr key); ("value", value)])) w).
Proof.
  intros [Hs Hr].
  unfold send_change_configuration, bind, try_except, ws_send, ws_recv_wait_for,
    new_request_id.
  cbn. rewrite Hs. cbn. rewrite Hr. reflexivity.
Qed.

(** The payload of a GetConfiguration call: [{"key": keys}] when [keys] is
    a non-empty list, [{}] otherwise. *)
Lemma send_get_configuration_answered
    (e : env) (o : validator) (w : world) (k : string) (ks : list string)
    (frame : pyval) :
  answered e w frame ->
  send_get_configuration (Some (k :: ks)) e o w =
  (Ret frame, o,
   after_call (call_frame (uuid4 e (n_uuid w)) "GetConfiguration"
                 (PDict [("key", PList (map PStr (k :: ks)))])) w).
Proof.
  intros [Hs Hr].
  unfold send_get_configuration, bind, try_except, ws_send, ws_recv_wait_for,
    new_request_id.
  cbn. rewrite Hs. cbn. rewrite Hr. reflexivity.
Qed.

Lemma result_frame_is_call_result (r : pyval) (payload : list (string * pyval)) :
  result_frame r payload -> is_call_result r = Ret true.
Proof.
  intros (x & id & rest & -> & Hx). apply is_call_result_true. eauto.
Qed.

Lemma result_frame_get_status (r : pyval) (payload : list (string * pyval)) :
  result_frame r payload ->
  get_status r =
  Ret match dict_lookup payload "status" with Some v => v | None => PNone end.
Proof.
  intros Hf. apply get_status_ret; [| now exists payload].
  now apply result_frame_is_call_result with payload.
Qed.




(** *** The loop of [test_invalid_values] *)

Lemma py_in_strs_true (v : pyval) (l : list string) :
  py_in_strs v l = true <-> exists s, In s l /\ v = PStr s.
Proof.
  unfold py_in_strs. rewrite existsb_exists.
  split; intros (s & Hin & H); exists s; (split; [exact Hin |]);
    now apply py_eq_str_true.
Qed.

Lemma status_verdict_true (expected : list string) (f : pyval) :
  status_verdict expected f = Ret true <->
  exists s, In s expected /\ result_with_status f s.
Proof.
  unfold status_verdict. split.
  - destruct (is_call_result f) as [[|] | | |] eqn:Hc; cbn; try discriminate.
    destruct (get_status f) as [st | | |] eqn:Hst; cbn; try discriminate.
    intros [= Hin]. apply py_in_strs_true in Hin as (s & Hin & ->).
    exists s. split; [exact Hin |]. apply result_with_status_iff.
    split; [exact Hc |]. exists (PStr s). split; [exact Hst |].
    now apply py_eq_str_true.
  - intros (s & Hin & Hs). apply result_with_status_iff in Hs as (Hc & st & Hst & Heq).
    rewrite Hc. cbn. rewrite Hst. cbn. f_equal.
    apply py_in_strs_true. exists s. split; [exact Hin |].
    now apply py_eq_str_true.
Qed.

Lemma status_verdict_result_frame (expected : list string) (f : pyval)
    (payload : list (string * pyval)) :
  result_frame f payload ->
  status_verdict expected f =
  Ret (py_in_strs
         match dict_lookup payload "status" with Some v => v | None => PNone end
         expected).
Proof.
  intros Hf. unfold status_verdict.
  rewrite (result_frame_is_call_result _ _ Hf). cbn.
  now rewrite (result_frame_get_status _ _ Hf).
Qed.

Lemma all_verdicts_true (expected : list string) (frames : list pyval) :
  forall all_passed,
    all_verdicts expected frames all_passed = Ret true <->
    all_passed = true /\
    Forall (fun f => status_verdict expected f = Ret true) frames.
Proof.
  induction frames as [| f fs IH]; intros ap; cbn.
  - split; [intros [= ->]; auto | intros [-> _]; reflexivity].
  - destruct (status_verdict expected f) as [b | | |] eqn:Hv; cbn.
    + rewrite IH. rewrite andb_true_iff. split.
      * intros [[-> ->] H]. auto.
      * intros [-> H]. inversion H; subst. split; [split; congruence | assumption].
    + split; [discriminate | intros [_ H]; inversion H; congruence].
    + split; [discriminate | intros [_ H]; inversion H; congruence].
    + split; [discriminate | intros [_ H]; inversion H; congruence].
Qed.

Lemma invalid_values_loop_step (e : env) (o : validator) (w : world)
    (key value descr : string) (rest : list (string * string * string))
    (all_passed : bool) (f : pyval) :
  answered e w f ->
  invalid_values_loop ((key, value, descr) :: rest) all_passed e o w =
  let w1 := after_call (call_frame (uuid4 e (n_uuid w)) "ChangeConfiguration"
                          (PDict [("key", PStr key); ("value", PStr value)])) w in
  match status_verdict ["Rejected"; "NotSupported"] f with
  | Ret b => invalid_values_loop rest (all_passed && b) e o w1
  | Raise x => (Raise x, o, w1)
  | Blocked => (Blocked, o, w1)
  | OutOfFuel => (OutOfFuel, o, w1)
  end.
Proof.
  intros Hans. cbn [invalid_values_loop]. unfold bind.
  rewrite (send_change_configuration_answered e o w key (PStr value) f Hans).
  unfold status_verdict, lift.
  destruct (is_call_result f) as [[|] | | |]; cbn [rbind]; try reflexivity.
  - destruct (get_status f) as [st | | |]; cbn [rbind]; try reflexivity.
    destruct (py_in_strs st ["Rejected"; "NotSupported"]).
    + now rewrite andb_true_r.
    + now rewrite andb_false_r.
  - now rewrite andb_false_r.
Qed.

Lemma invalid_values_loop_verdicts (e : env) (o : validator) :
  forall cases frames all_passed w,
    length cases = length frames ->
    answers e (n_send w) (n_recv w) frames ->
    fst (fst (invalid_values_loop cases all_passed e o w)) =
      all_verdicts ["Rejected"; "NotSupported"] frames all_passed /\
    (forall b,
       all_verdicts ["Rejected"; "NotSupported"] frames all_passed = Ret b ->
       invalid_values_loop cases all_passed e o w = (Ret b, o, after_changes e cases w)).
Proof.
  induction cases as [| [[key value] descr] rest IH]; intros [| f fs] ap w Hlen Hans;
    try discriminate Hlen.
  - cbn. split; [reflexivity | intros b [= ->]; reflexivity].
  - cbn in Hlen. injection Hlen as Hlen. destruct Hans as (Hs & Hr & Hans).
    rewrite (invalid_values_loop_step e o w key value descr rest ap f (conj Hs Hr)).
    cbn [all_verdicts after_changes]. cbv zeta.
    destruct (status_verdict ["Rejected"; "NotSupported"] f) as [b | | |];
      cbn [rbind fst]; try (split; [reflexivity | discriminate]).
    apply IH; assumption.
Qed.

Lemma test_invalid_values_outcome (e : env) (o : validator) (w : world) :
  fst (fst (test_invalid_values e o w)) =
  fst (fst (invalid_values_loop test_cases true e o w)) /\
  (forall b o' w',
     invalid_values_loop test_cases true e o w = (Ret b, o', w') ->
     test_invalid_values e o w =
     (Ret b,
      {| test_results := test_results o' ++ [("Invalid value rejection", b)] |}, w')).
Proof.
  unfold test_invalid_values, bind.
  destruct (invalid_values_loop test_cases true e o w) as [[[b | x | |] o'] w'];
    cbn; (split; [reflexivity |]); intros b0 o0 w0 [= <- <- <-]; reflexivity.
Qed.

Lemma result_frame_functional (f : pyval) (p q : list (string * pyval)) :
  result_frame f p -> result_frame f q -> p = q.
Proof.
  intros (x & id & rest & -> & _) (x' & id' & rest' & [= _ _ -> _] & _).
  reflexivity.
Qed.

Lemma result_with_status_functional (f : pyval) (s t : string) :
  result_with_status f s -> result_with_status f t -> s = t.
Proof.
  intros (p & Hp & Hs) (q & Hq & Ht).
  rewrite (result_frame_functional _ _ _ Hp Hq) in Hs. congruence.
Qed.

Lemma refused_iff_verdict (f : pyval) :
  result_with_status f "Rejected" \/ result_with_status f "NotSupported" <->
  status_verdict ["Rejected"; "NotSupported"] f = Ret true.
Proof.
  rewrite status_verdict_true. split.
  - intros [H | H]; eexists; (split; [| exact H]); cbn; auto.
  - intros (s & [<- | [<- | []]] & H); auto.
Qed.

(** C8. The invalid-value check sends the four out-of-domain
    ChangeConfiguration requests in turn; when each is answered by a
    frame, the check passes exactly when every answer is a result with
    status "Rejected" or "NotSupported".  An answer with status
    "Accepted" never lets it pass, and when the four answers are result
    frames not all of which refuse, it returns False and records
    ("Invalid value rejection", False). *)
Theorem invalid_values_check_passes_iff_refused
    (e : env) (o : validator) (w : world) (f0 f1 f2 f3 : pyval)
    (Hans : answers e (n_send w) (n_recv w) [f0; f1; f2; f3]) :
  let refused f :=
    result_with_status f "Rejected" \/ result_with_status f "NotSupported" in
  let change n key value :=
    EvSend (call_frame (uuid4 e (n + n_uuid w)) "ChangeConfiguration"
              (PDict [("key", PStr key); ("value", PStr value)])) in
  trace (after_changes e test_cases w) =
    (trace w ++ [change 0%nat "HeartbeatInterval" "not-a-number";
                 change 1%nat "LightIntensity" "150";
                 change 2%nat "LocalAuthorizeOffline" "yes";
                 change 3%nat "UnknownKey" "value"])%list /\
  (fst (fst (test_invalid_values e o w)) = Ret true <->
   refused f0 /\ refused f1 /\ refused f2 /\ refused f3) /\
  (refused f0 /\ refused f1 /\ refused f2 /\ refused f3 ->
   test_invalid_values e o w =
   (Ret true,
    {| test_results := test_results o ++ [("Invalid value rejection", true)] |},
    after_changes e test_cases w)) /\
  (forall f, In f [f0; f1; f2; f3] -> result_with_status f "Accepted" ->
             fst (fst (test_invalid_values e o w)) <> Ret true) /\
  (forall p0 p1 p2 p3,
     result_frame f0 p0 -> result_frame f1 p1 ->
     result_frame f2 p2 -> result_frame f3 p3 ->
     ~ (refused f0 /\ refused f1 /\ refused f2 /\ refused f3) ->
     test_invalid_values e o w =
     (Ret false,
      {| test_results := test_results o ++ [("Invalid value rejection", false)] |},
      after_changes e test_cases w)).
Proof.
  intros refused change.
  destruct (invalid_values_loop_verdicts e o test_cases [f0; f1; f2; f3] true w
              eq_refl Hans) as [Hfst Hfull].
  destruct (test_invalid_values_outcome e o w) as [Hout Hrec].
  assert (Hiff : fst (fst (test_invalid_values e o w)) = Ret true <->
                 refused f0 /\ refused f1 /\ refused f2 /\ refused f3).
  { rewrite Hout, Hfst, all_verdicts_true. unfold refused.
    rewrite !refused_iff_verdict. split.
    - intros [_ H]. inversion_clear H as [| ? ? H0 H']. inversion_clear H' as [| ? ? H1 H''].
      inversion_clear H'' as [| ? ? H2 H3]. inversion_clear H3 as [| ? ? H4 _]. auto.
    - intros (H0 & H1 & H2 & H3). split; [reflexivity |]. repeat constructor; assumption. }
  split; [| split; [exact Hiff | split; [| split]]].
  - cbn. rewrite <- !app_assoc. reflexivity.
  - intros Hall. apply Hiff in Hall. rewrite Hout, Hfst in Hall.
    apply (Hrec true o). now apply Hfull.
  - intros f Hin Hacc Hpass. apply Hiff in Hpass as (H0 & H1 & H2 & H3).
    assert (Hf : refused f).
    { destruct Hin as [<- | [<- | [<- | [<- | []]]]]; assumption. }
    destruct Hf as [Hf | Hf];
      pose proof (result_with_status_functional _ _ _ Hacc Hf) as Habs;
      discriminate Habs.
  - intros p0 p1 p2 p3 Hp0 Hp1 Hp2 Hp3 Hnot.
    assert (Hv : exists b, all_verdicts ["Rejected"; "NotSupported"] [f0; f1; f2; f3] true
                           = Ret b).
    { cbn [all_verdicts].
      rewrite (status_verdict_result_frame _ _ _ Hp0),
        (status_verdict_result_frame _ _ _ Hp1),
        (status_verdict_result_frame _ _ _ Hp2),
        (status_verdict_result_frame _ _ _ Hp3).
      cbn [rbind]. eauto. }
    destruct Hv as [[|] Hv].
    + exfalso. apply Hnot, Hiff. now rewrite Hout, Hfst.
    + apply (Hrec false o). now apply Hfull.
Qed.

Lemma invalid_values_check_passes_iff_refused_witness :
  answers (scripted (1 # 2)
             [status_frame "call-0" "Rejected"; status_frame "call-1" "Rejected";
              status_frame "call-2" "NotSupported"; status_frame "call-3" "NotSupported"])
    0 0
    [status_frame "call-0" "Rejected"; status_frame "call-1" "Rejected";
     status_frame "call-2" "NotSupported"; status_frame "call-3" "NotSupported"] /\
  fst (fst (test_invalid_values
              (scripted (1 # 2)
                 [status_frame "call-0" "Rejected"; status_frame "call-1" "Rejected";
                  status_frame "call-2" "NotSupported"; status_frame "call-3" "NotSupported"])
              validator_init world0)) = Ret true.
Proof.
  assert (H : answers (scripted (1 # 2)
             [status_frame "call-0" "Rejected"; status_frame "call-1" "Rejected";
              status_frame "call-2" "NotSupported"; status_frame "call-3" "NotSupported"])
    0 0
    [status_frame "call-0" "Rejected"; status_frame "call-1" "Rejected";
     status_frame "call-2" "NotSupported"; status_frame "call-3" "NotSupported"])
    by (cbn; repeat split).
  split; [exact H |].
  apply (invalid_values_check_passes_iff_refused _ validator_init world0 _ _ _ _ H).
  assert (Hst : forall id s, result_with_status (status_frame id s) s).
  { intros id s. exists [("status", PStr s)]. split; [| reflexivity].
    exists (PInt 3), (PStr id), []. split; reflexivity. }
  repeat split; (left; apply Hst) || (right; apply Hst).
Defined.

(** *** Reading a value back *)

Lemma result_frame_get_config_keys (r : pyval) (payload : list (string * pyval)) :
  result_frame r payload ->
  get_config_keys r =
  Ret match dict_lookup payload "configurationKey" with
      | Some v => v
      | None => PList []
      end.
Proof.
  intros (x & id & rest & -> & _). unfold get_config_keys. cbn.
  now destruct (dict_lookup payload "configurationKey").
Qed.

Lemma get_config_keys_ret (r ck : pyval) :
  is_call_result r = Ret true ->
  get_config_keys r = Ret ck ->
  exists payload, result_frame r payload.
Proof.
  intros Hr. apply is_call_result_true in Hr as (x & rest & -> & Hx).
  unfold get_config_keys, result_frame. cbn.
  destruct rest as [| id [| p rest]]; cbn; try discriminate.
  destruct p as [| | | | | | d]; cbn; try discriminate.
  intros _. exists d, x, id, rest. auto.
Qed.

Lemma first_value_is_true (ck : pyval) (v : string) :
  first_value_is ck v = Ret true <->
  exists entry entries,
    ck = PList (PDict entry :: entries) /\ dict_lookup entry "value" = Some (PStr v).
Proof.
  unfold first_value_is. split.
  - destruct ck as [| b | z | q | s | l | d]; cbn; try discriminate.
    + destruct b; cbn; discriminate.
    + destruct (negb (z =? 0)%Z); cbn; discriminate.
    + destruct (negb (Qeq_bool q 0)); cbn; discriminate.
    + destruct s as [| c s]; cbn; discriminate.
    + destruct l as [| c0 l]; cbn; try discriminate.
      destruct c0 as [| | | | | | entry]; cbn; try discriminate.
      destruct (dict_lookup entry "value") as [x |] eqn:Hl; cbn; try discriminate.
      intros [= Heq]. apply py_eq_str_true in Heq. subst x. eauto.
    + destruct d; cbn; discriminate.
  - intros (entry & entries & -> & Hl). cbn. rewrite Hl. cbn.
    now rewrite String.eqb_refl.
Qed.

Lemma result_with_first_value_iff (r : pyval) (v : string) :
  result_with_first_value r v <->
  is_call_result r = Ret true /\
  exists ck, get_config_keys r = Ret ck /\ first_value_is ck v = Ret true.
Proof.
  split.
  - intros (payload & entry & entries & Hf & Hck & Hv).
    split; [now apply result_frame_is_call_result with payload |].
    exists (PList (PDict entry :: entries)). split.
    + rewrite (result_frame_get_config_keys _ _ Hf). now rewrite Hck.
    + apply first_value_is_true. eauto.
  - intros (Hc & ck & Hck & Hv).
    destruct (get_config_keys_ret _ _ Hc Hck) as [payload Hf].
    apply first_value_is_true in Hv as (entry & entries & -> & Hv).
    rewrite (result_frame_get_config_keys _ _ Hf) in Hck.
    exists payload, entry, entries. split; [exact Hf | split; [| exact Hv]].
    destruct (dict_lookup payload "configurationKey") as [x |]; [congruence |].
    discriminate Hck.
Qed.

(** A ChangeConfiguration call never raises: whatever the transport does,
    it hands something back, leaves the validator as it was and has tried
    to send exactly its own frame. *)
Lemma send_change_configuration_total
    (e : env) (o : validator) (w : world) (key : string) (value : pyval) :
  exists r w',
    send_change_configuration key value e o w = (Ret r, o, w') /\
    trace w' =
    (trace w ++ [EvSend (call_frame (uuid4 e (n_uuid w)) "ChangeConfiguration"
                           (PDict [("key", PStr key); ("value", value)]))])%list.
Proof.
  unfold send_change_configuration, bind, try_except, ws_send, ws_recv_wait_for,
    new_request_id, json_loads, ret, raise.
  cbn. destruct (send_ok e (n_send w)); cbn; [| eauto].
  destruct (inbox e (n_recv w)) as [| | [v |]]; cbn; eauto.
Qed.

Lemma accepted_status (f : pyval) (s : string) :
  In s ["Accepted"; "RebootRequired"] ->
  result_with_status f s ->
  is_call_result f = Ret true /\
  exists st, get_status f = Ret st /\
             py_in_strs st ["Accepted"; "RebootRequired"] = true.
Proof.
  intros Hin Hs. apply result_with_status_iff in Hs as (Hc & st & Hst & Heq).
  split; [exact Hc |]. exists st. split; [exact Hst |].
  apply py_in_strs_true. exists s. split; [exact Hin |]. now apply py_eq_str_true.
Qed.

Lemma test_persistence_spec
    (e : env) (o : validator) (w : world) (f1 f2 : pyval) (s : string) :
  answers e (n_send w) (n_recv w) [f1; f2] ->
  In s ["Accepted"; "RebootRequired"] ->
  result_with_status f1 s ->
  let w1 := after_call (call_frame (uuid4 e (n_uuid w)) "ChangeConfiguration"
                          (PDict [("key", PStr "MeterValueSampleInterval");
                                  ("value", PStr "45")])) w in
  let w2 := after_call (call_frame (uuid4 e (S (n_uuid w))) "GetConfiguration"
                          (PDict [("key", PList [PStr "MeterValueSampleInterval"])]))
              (log (EvSleep 1) w1) in
  snd (test_persistence e o w) = w2 /\
  (fst (fst (test_persistence e o w)) = Ret true <->
   result_with_first_value f2 "45") /\
  (result_with_first_value f2 "45" ->
   test_persistence e o w =
   (Ret true,
    {| test_results := test_results o ++ [("Configuration persistence", true)] |}, w2)).
Proof.
  intros (Hs1 & Hr1 & Hs2 & Hr2 & _) Hin Hst w1 w2.
  destruct (accepted_status _ _ Hin Hst) as (Hc & st & Hget & Hacc).
  pose proof (result_with_first_value_iff f2 "45") as HV.
  assert (Hrun :
    test_persistence e o w =
    match is_call_result f2 with
    | Ret true =>
        match get_config_keys f2 with
        | Ret ck =>
            match first_value_is ck "45" with
            | Ret true =>
                (Ret true,
                 {| test_results := test_results o ++ [("Configuration persistence", true)] |},
                 w2)
            | Ret false => (Ret false, o, w2)
            | Raise x => (Raise x, o, w2)
            | Blocked => (Blocked, o, w2)
            | OutOfFuel => (OutOfFuel, o, w2)
            end
        | Raise x => (Raise x, o, w2)
        | Blocked => (Blocked, o, w2)
        | OutOfFuel => (OutOfFuel, o, w2)
        end
    | Ret false => (Ret false, o, w2)
    | Raise x => (Raise x, o, w2)
    | Blocked => (Blocked, o, w2)
    | OutOfFuel => (OutOfFuel, o, w2)
    end).
  { unfold test_persistence, bind at 1.
    rewrite (send_change_configuration_answered e o w _ _ f1 (conj Hs1 Hr1)).
    fold w1. unfold bind at 1, lift at 1. rewrite Hc.
    unfold bind at 1. unfold bind at 1, lift at 1. rewrite Hget.
    unfold ret at 1. rewrite Hacc. cbn [negb].
    unfold bind at 1, sleep at 1. unfold bind at 1.
    rewrite (send_get_configuration_answered e o (log (EvSleep 1) w1) _ _ f2
               (conj Hs2 Hr2)).
    fold w2. unfold bind, lift, ret, append_result.
    destruct (is_call_result f2) as [[|] | | |]; try reflexivity.
    destruct (get_config_keys f2) as [ck | | |]; try reflexivity.
    destruct (first_value_is ck "45") as [[|] | | |]; reflexivity. }
  rewrite Hrun, HV.
  destruct (is_call_result f2) as [[|] | | |];
    try (split; [reflexivity | split; [split; [discriminate | intros [H _]; discriminate H]
                                     | intros [H _]; discriminate H]]).
  destruct (get_config_keys f2) as [ck | | |];
    try (split; [reflexivity
                | split; [split; [discriminate | intros [_ (ck' & H & _)]; discriminate H]
                         | intros [_ (ck' & H & _)]; discriminate H]]).
  destruct (first_value_is ck "45") as [[|] | | |] eqn:Hfv;
    try (split; [reflexivity
                | split; [split; [discriminate
                                 | intros [_ (ck' & [= <-] & H)]; congruence]
                         | intros [_ (ck' & [= <-] & H)]; congruence]]).
  split; [reflexivity | split; [split; [| reflexivity] | reflexivity]].
  intros _. split; [reflexivity |]. exists ck. split; [reflexivity | exact Hfv].
Qed.

Lemma first_value_original (g : pyval) (old : string) :
  result_with_first_value g old ->
  is_call_result g = Ret true /\
  exists entry entries,
    get_config_keys g = Ret (PList (PDict entry :: entries)) /\
    dict_get (PDict entry) "value" PNone = Ret (PStr old).
Proof.
  intros (payload & entry & entries & Hf & Hck & Hv).
  split; [now apply result_frame_is_call_result with payload |].
  exists entry, entries. split.
  - rewrite (result_frame_get_config_keys _ _ Hf). now rewrite Hck.
  - cbn. now rewrite Hv.
Qed.

Lemma test_change_configuration_spec
    (e : env) (o : validator) (w : world) (g0 f1 f2 : pyval) (old s : string) :
  answers e (n_send w) (n_recv w) [g0; f1; f2] ->
  result_with_first_value g0 old ->
  In s ["Accepted"; "RebootRequired"] ->
  result_with_status f1 s ->
  let get n :=
    EvSend (call_frame (uuid4 e (n + n_uuid w)) "GetConfiguration"
              (PDict [("key", PList [PStr "HeartbeatInterval"])])) in
  let change n v :=
    EvSend (call_frame (uuid4 e (n + n_uuid w)) "ChangeConfiguration"
              (PDict [("key", PStr "HeartbeatInterval"); ("value", PStr v)])) in
  let checked :=
    (trace w ++ [get 0%nat; change 1%nat "900"; EvSleep (1 # 2); get 2%nat])%list in
  (fst (fst (test_change_configuration e o w)) = Ret true <->
   result_with_first_value f2 "900") /\
  (result_with_first_value f2 "900" ->
   snd (fst (test_change_configuration e o w)) =
     {| test_results := test_results o ++ [("Change configuration", true)] |} /\
   trace (snd (test_change_configuration e o w)) =
     (checked ++ if String.eqb old "" then [] else [change 3%nat old])%list) /\
  (~ result_with_first_value f2 "900" ->
   trace (snd (test_change_configuration e o w)) = checked).
Proof.
  intros (Hs0 & Hr0 & Hs1 & Hr1 & Hs2 & Hr2 & _) Hold Hin Hst get change checked.
  destruct (first_value_original _ _ Hold) as (Hc0 & entry & entries & Hck0 & Hv0).
  destruct (accepted_status _ _ Hin Hst) as (Hc1 & st & Hget & Hacc).
  pose proof (result_with_first_value_iff f2 "900") as HV.
  cut (exists res o' w',
         test_change_configuration e o w = (res, o', w') /\
         (res = Ret true <-> result_with_first_value f2 "900") /\
         (result_with_first_value f2 "900" ->
          o' = {| test_results := test_results o ++ [("Change configuration", true)] |} /\
          trace w' =
            (checked ++ if String.eqb old "" then [] else [change 3%nat old])%list) /\
         (~ result_with_first_value f2 "900" -> trace w' = checked)).
  { intros (res & o' & w' & -> & H). exact H. }
  unfold test_change_configuration, bind, lift, ret.
  rewrite (send_get_configuration_answered e o w _ _ g0 (conj Hs0 Hr0)).
  cbv beta iota. rewrite Hc0. cbv beta iota. rewrite Hck0. cbv beta iota.
  cbn [truthy getitem_int nth_error]. cbv beta iota. rewrite Hv0. cbv beta iota.
  set (w0 := after_call _ w).
  rewrite (send_change_configuration_answered e o w0 _ _ f1 (conj Hs1 Hr1)).
  cbv beta iota. rewrite Hc1. cbv beta iota. rewrite Hget. cbv beta iota.
  rewrite Hacc. cbv beta iota. unfold sleep. cbv beta iota.
  set (w1 := after_call _ w0).
  rewrite (send_get_configuration_answered e o (log (EvSleep (1 # 2)) w1) _ _ f2
             (conj Hs2 Hr2)).
  cbv beta iota. set (w2 := after_call _ (log _ w1)).
  assert (Htr : trace w2 = checked).
  { unfold w2, w1, w0, checked, get, change. cbn. now rewrite <- !app_assoc. }
  unfold append_result.
  destruct (is_call_result f2) as [[|] | | |] eqn:Hc2; cbv beta iota.
  2-5: (assert (Hno : ~ result_with_first_value f2 "900")
          by (rewrite HV; intros [H _]; discriminate H);
        eexists _, _, _; split; [reflexivity |];
        split; [split; [intros H; discriminate H | intros H; contradiction]
               | split; [intros H; contradiction | intros _; exact Htr]]).
  destruct (get_config_keys f2) as [ck | | |] eqn:Hck2; cbv beta iota.
  2-4: (assert (Hno : ~ result_with_first_value f2 "900")
          by (rewrite HV; intros [_ (ck' & H & _)]; discriminate H);
        eexists _, _, _; split; [reflexivity |];
        split; [split; [intros H; discriminate H | intros H; contradiction]
               | split; [intros H; contradiction | intros _; exact Htr]]).
  destruct (first_value_is ck "900") as [[|] | | |] eqn:Hfv; cbv beta iota.
  2-5: (assert (Hno : ~ result_with_first_value f2 "900")
          by (rewrite HV; intros [_ (ck' & [= <-] & H)]; congruence);
        eexists _, _, _; split; [reflexivity |];
        split; [split; [intros H; discriminate H | intros H; contradiction]
               | split; [intros H; contradiction | intros _; exact Htr]]).
  assert (Hyes : result_with_first_value f2 "900")
    by (apply HV; split; [reflexivity | eauto]).
  cbn [truthy]. destruct (String.eqb old "") eqn:Hempty; cbn [negb]; cbv beta iota.
  - eexists _, _, _; split; [reflexivity |].
    split; [split; [intros _; exact Hyes | reflexivity] |].
    split; [| intros H; contradiction].
    intros _. split; [reflexivity |]. rewrite Htr. now rewrite app_nil_r.
  - destruct (send_change_configuration_total e o w2 "HeartbeatInterval" (PStr old))
      as (r & w3 & Hcall & Htr3).
    rewrite Hcall. cbv beta iota.
    eexists _, _, _; split; [reflexivity |].
    split; [split; [intros _; exact Hyes | reflexivity] |].
    split; [| intros H; contradiction].
    intros _. split; [reflexivity |]. rewrite Htr3, Htr.
    unfold change, w2. cbn. reflexivity.
Qed.

(** C9. Once a ChangeConfiguration of a writable key to [v] has been
    answered with Accepted or RebootRequired, the check sleeps (1 s in
    [test_persistence], 0.5 s in [test_change_configuration]), asks
    GetConfiguration for that one key, and passes exactly when the answer
    is a result whose first configurationKey entry carries the value [v]. *)
Theorem persistence_check_passes_iff_value_read_back
    (e : env) (o : validator) (w : world) (s : string)
    (Hin : In s ["Accepted"; "RebootRequired"]) :
  (forall f1 f2,
     answers e (n_send w) (n_recv w) [f1; f2] ->
     result_with_status f1 s ->
     trace (snd (test_persistence e o w)) =
       (trace w ++
        [EvSend (call_frame (uuid4 e (n_uuid w)) "ChangeConfiguration"
                   (PDict [("key", PStr "MeterValueSampleInterval");
                           ("value", PStr "45")]));
         EvSleep 1;
         EvSend (call_frame (uuid4 e (S (n_uuid w))) "GetConfiguration"
                   (PDict [("key", PList [PStr "MeterValueSampleInterval"])]))])%list /\
     (fst (fst (test_persistence e o w)) = Ret true <->
      result_with_first_value f2 "45")) /\
  (forall g0 f1 f2 old,
     answers e (n_send w) (n_recv w) [g0; f1; f2] ->
     result_with_first_value g0 old ->
     result_with_status f1 s ->
     (exists restore,
        trace (snd (test_change_configuration e o w)) =
          (trace w ++
           [EvSend (call_frame (uuid4 e (n_uuid w)) "GetConfiguration"
                      (PDict [("key", PList [PStr "HeartbeatInterval"])]));
            EvSend (call_frame (uuid4 e (S (n_uuid w))) "ChangeConfiguration"
                      (PDict [("key", PStr "HeartbeatInterval");
                              ("value", PStr "900")]));
            EvSleep (1 # 2);
            EvSend (call_frame (uuid4 e (S (S (n_uuid w)))) "GetConfiguration"
                      (PDict [("key", PList [PStr "HeartbeatInterval"])]))]
           ++ restore)%list) /\
     (fst (fst (test_change_configuration e o w)) = Ret true <->
      result_with_first_value f2 "900")).
Proof.
  split.
  - intros f1 f2 Hans Hst.
    destruct (test_persistence_spec e o w f1 f2 s Hans Hin Hst) as (Hw & Hiff & _).
    split; [| exact Hiff]. rewrite Hw. cbn. now rewrite <- !app_assoc.
  - intros g0 f1 f2 old Hans Hold Hst.
    destruct (test_change_configuration_spec e o w g0 f1 f2 old s Hans Hold Hin Hst)
      as (Hiff & Hyes & Hno).
    split; [| exact Hiff].
    destruct (is_call_result f2) as [[|] | | |] eqn:Hc.
    2-5: (exists []; rewrite app_nil_r; apply Hno;
          rewrite result_with_first_value_iff; intros [H _]; congruence).
    destruct (get_config_keys f2) as [ck | | |] eqn:Hck.
    2-4: (exists []; rewrite app_nil_r; apply Hno;
          rewrite result_with_first_value_iff; intros [_ (ck' & H & _)]; congruence).
    destruct (first_value_is ck "900") as [[|] | | |] eqn:Hfv.
    2-5: (exists []; rewrite app_nil_r; apply Hno;
          rewrite result_with_first_value_iff; intros [_ (ck' & H & H')]; congruence).
    assert (Hpass : result_with_first_value f2 "900")
      by (apply result_with_first_value_iff; eauto).
    destruct (Hyes Hpass) as [_ Htr]. rewrite Htr, <- app_assoc.
    eexists. reflexivity.
Qed.

Lemma persistence_check_passes_iff_value_read_back_witness :
  fst (fst (test_persistence
              (scripted (1 # 2)
                 [status_frame "call-0" "Accepted";
                  config_frame "call-1" "MeterValueSampleInterval" "45"])
              validator_init world0)) = Ret true /\
  fst (fst (test_change_configuration
              (scripted (1 # 2)
                 [config_frame "call-0" "HeartbeatInterval" "300";
                  status_frame "call-1" "Accepted";
                  config_frame "call-2" "HeartbeatInterval" "900"])
              validator_init world0)) = Ret true.
Proof.
  assert (Hin : In "Accepted" ["Accepted"; "RebootRequired"]) by (left; reflexivity).
  assert (Hst : forall id, result_with_status (status_frame id "Accepted") "Accepted").
  { intros id. exists [("status", PStr "Accepted")]. split; [| reflexivity].
    exists (PInt 3), (PStr id), []. split; reflexivity. }
  assert (Hcf : forall id key v, result_with_first_value (config_frame id key v) v).
  { intros id key v.
    exists [("configurationKey",
             PList [PDict [("key", PStr key); ("readonly", PBool false);
                           ("value", PStr v)]])],
      [("key", PStr key); ("readonly", PBool false); ("value", PStr v)], [].
    split; [| split; reflexivity].
    exists (PInt 3), (PStr id), []. split; reflexivity. }
  split.
  - apply (proj1 (persistence_check_passes_iff_value_read_back
                    (scripted (1 # 2)
                       [status_frame "call-0" "Accepted";
                        config_frame "call-1" "MeterValueSampleInterval" "45"])
                    validator_init world0 "Accepted" Hin)
             (status_frame "call-0" "Accepted")
             (config_frame "call-1" "MeterValueSampleInterval" "45")).
    + cbn. repeat split.
    + apply Hst.
    + apply Hcf.
  - apply (proj2 (persistence_check_passes_iff_value_read_back
                    (scripted (1 # 2)
                       [config_frame "call-0" "HeartbeatInterval" "300";
                        status_frame "call-1" "Accepted";
                        config_frame "call-2" "HeartbeatInterval" "900"])
                    validator_init world0 "Accepted" Hin)
             (config_frame "call-0" "HeartbeatInterval" "300")
             (status_frame "call-1" "Accepted")
             (config_frame "call-2" "HeartbeatInterval" "900") "300").
    + cbn. repeat split.
    + apply Hcf.
    + apply Hst.
    + apply Hcf.
Defined.

(** ** The meter-value simulator *)

(** Whatever the transport does, [send_meter_values] tries to send exactly
    one frame, and never touches the simulator object. *)
Lemma send_meter_values_sends
    (e : env) (o : simulator) (w : world)
    (energy_wh power_w : num) (current_a voltage_v temperature_c : option num) :
  snd (fst (send_meter_values energy_wh power_w current_a voltage_v temperature_c e o w))
    = o /\
  trace (snd (send_meter_values energy_wh power_w current_a voltage_v temperature_c e o w))
    = (trace w ++
       [EvSend (meter_values_frame e o w energy_wh power_w
                  current_a voltage_v temperature_c)])%list.
Proof.
  unfold send_meter_values, bind, new_request_id, ask_env, timestamp_now, get_self,
    ws_send, ws_recv, ret.
  cbn. destruct (send_ok e (n_send w)); cbn; [| split; reflexivity].
  destruct (inbox e (n_recv w)) as [| | t]; cbn; split; reflexivity.
Qed.

(** When the send goes through and any frame at all comes back, the call
    returns, without looking at the frame. *)
Lemma send_meter_values_delivered
    (e : env) (o : simulator) (w : world) (t : option pyval)
    (energy_wh power_w : num) (current_a voltage_v temperature_c : option num) :
  send_ok e (n_send w) = true ->
  inbox e (n_recv w) = Text t ->
  send_meter_values energy_wh power_w current_a voltage_v temperature_c e o w =
  (Ret tt, o,
   after_stamped_call
     (meter_values_frame e o w energy_wh power_w current_a voltage_v temperature_c) w).
Proof.
  intros Hs Hr.
  unfold send_meter_values, bind, new_request_id, ask_env, timestamp_now, get_self,
    ws_send, ws_recv, ret.
  cbn. rewrite Hs. cbn. rewrite Hr. reflexivity.
Qed.

Lemma message_data_meter_value (ts : string) (l : list pyval) (tid : pyval) :
  exists payload,
    message_data_of ts l tid = PDict payload /\
    dict_lookup payload "connectorId" = Some (PInt 1) /\
    dict_lookup payload "meterValue" =
      Some (PList [PDict [("timestamp", PStr ts); ("sampledValue", PList l)]]) /\
    dict_lookup payload "transactionId" = if truthy tid then Some tid else None.
Proof.
  unfold message_data_of. destruct (truthy tid); eexists; repeat split; reflexivity.
Qed.

(** C2. [send_meter_values(5000, 3700, 16, 230, 25)] sends one MeterValues
    call whose sampledValue list is: energy "5000" Wh, power "3700" W,
    current "16" A, voltage "230" V, temperature "25" Celsius. *)
Theorem send_meter_values_literal_example
    (e : env) (o : simulator) (w : world) :
  exists payload,
    trace (snd (send_meter_values (NInt 5000) (NInt 3700)
                  (Some (NInt 16)) (Some (NInt 230)) (Some (NInt 25)) e o w)) =
      (trace w ++
       [EvSend (call_frame (uuid4 e (n_uuid w)) "MeterValues" (PDict payload))])%list /\
    dict_lookup payload "meterValue" =
      Some (PList
        [PDict
           [("timestamp", PStr (utcnow e (n_utc w) ++ "Z"));
            ("sampledValue",
             PList
               [PDict [("value", PStr "5000");
                       ("measurand", PStr "Energy.Active.Import.Register");
                       ("unit", PStr "Wh")];
                PDict [("value", PStr "3700");
                       ("measurand", PStr "Power.Active.Import");
                       ("unit", PStr "W")];
                PDict [("value", PStr "16");
                       ("measurand", PStr "Current.Import");
                       ("unit", PStr "A")];
                PDict [("value", PStr "230");
                       ("measurand", PStr "Voltage");
                       ("unit", PStr "V")];
                PDict [("value", PStr "25");
                       ("measurand", PStr "Temperature");
                       ("unit", PStr "Celsius")]])]]).
Proof.
  destruct (send_meter_values_sends e o w (NInt 5000) (NInt 3700)
              (Some (NInt 16)) (Some (NInt 230)) (Some (NInt 25))) as [_ Htr].
  rewrite Htr. unfold meter_values_frame.
  destruct (message_data_meter_value (utcnow e (n_utc w) ++ "Z")
              (sampled_values_of (py_str e) (NInt 5000) (NInt 3700)
                 (Some (NInt 16)) (Some (NInt 230)) (Some (NInt 25)))
              (transaction_id o)) as (payload & -> & _ & Hmv & _).
  exists payload. split; [reflexivity |]. rewrite Hmv. reflexivity.
Qed.

Lemma has_measurand_dec (l : list pyval) (m : string) :
  has_measurand l m <-> has_measurandb l m = true.
Proof.
  unfold has_measurand, has_measurandb. rewrite existsb_exists. split.
  - intros (d & Hin & Hm). exists (PDict d). split; [exact Hin |].
    rewrite Hm. apply String.eqb_refl.
  - intros (x & Hin & Hx). destruct x as [| | | | | | d]; try discriminate.
    exists d. split; [exact Hin |].
    destruct (dict_lookup d "measurand") as [[| | | | m' | |] |]; try discriminate.
    apply String.eqb_eq in Hx. now subst.
Qed.

Lemma sampled_values_measurands (str : num -> string) (energy_wh power_w : num)
    (current_a voltage_v temperature_c : option num) :
  let sv := sampled_values_of str energy_wh power_w current_a voltage_v temperature_c in
  has_measurandb sv "Energy.Active.Import.Register" = true /\
  has_measurandb sv "Power.Active.Import" = true /\
  has_measurandb sv "Current.Import" = opt_truthy current_a /\
  has_measurandb sv "Voltage" = opt_truthy voltage_v /\
  has_measurandb sv "Temperature" = opt_truthy temperature_c.
Proof.
  unfold sampled_values_of, opt_truthy.
  destruct current_a as [c |]; [destruct (num_truthy c) |];
    (destruct voltage_v as [v |]; [destruct (num_truthy v) |]);
    (destruct temperature_c as [t |]; [destruct (num_truthy t) |]);
    cbn; repeat split; reflexivity.
Qed.

(** C10. In every MeterValues call the Energy and Power entries are
    present, and each of the Current.Import, Voltage and Temperature
    entries is present exactly when its argument is truthy: a falsy
    number (0 or 0.0) gives the same call as None.  The payload has a
    transactionId member exactly when the stored transaction id is
    truthy, and it is then the stored id. *)
Theorem optional_entries_present_iff_truthy
    (e : env) (o : simulator) (w : world)
    (energy_wh power_w : num) (current_a voltage_v temperature_c : option num) :
  (exists payload sv,
     trace (snd (send_meter_values energy_wh power_w
                   current_a voltage_v temperature_c e o w)) =
       (trace w ++
        [EvSend (call_frame (uuid4 e (n_uuid w)) "MeterValues" (PDict payload))])%list /\
     dict_lookup payload "meterValue" =
       Some (PList [PDict [("timestamp", PStr (utcnow e (n_utc w) ++ "Z"));
                           ("sampledValue", PList sv)]]) /\
     has_measurand sv "Energy.Active.Import.Register" /\
     has_measurand sv "Power.Active.Import" /\
     (has_measurand sv "Current.Import" <-> opt_truthy current_a = true) /\
     (has_measurand sv "Voltage" <-> opt_truthy voltage_v = true) /\
     (has_measurand sv "Temperature" <-> opt_truthy temperature_c = true) /\
     (dict_lookup payload "transactionId" <> None <->
      truthy (transaction_id o) = true) /\
     (truthy (transaction_id o) = true ->
      dict_lookup payload "transactionId" = Some (transaction_id o))) /\
  (forall z, num_truthy z = false ->
     send_meter_values energy_wh power_w (Some z) voltage_v temperature_c e o w =
     send_meter_values energy_wh power_w None voltage_v temperature_c e o w /\
     send_meter_values energy_wh power_w current_a (Some z) temperature_c e o w =
     send_meter_values energy_wh power_w current_a None temperature_c e o w /\
     send_meter_values energy_wh power_w current_a voltage_v (Some z) e o w =
     send_meter_values energy_wh power_w current_a voltage_v None e o w) /\
  num_truthy (NInt 0) = false /\
  num_truthy (NFloat 0) = false.
Proof.
  split; [| split; [| split; reflexivity]].
  - destruct (send_meter_values_sends e o w energy_wh power_w
                current_a voltage_v temperature_c) as [_ Htr].
    rewrite Htr. unfold meter_values_frame.
    destruct (message_data_meter_value (utcnow e (n_utc w) ++ "Z")
                (sampled_values_of (py_str e) energy_wh power_w
                   current_a voltage_v temperature_c)
                (transaction_id o)) as (payload & -> & _ & Hmv & Htid).
    exists payload, (sampled_values_of (py_str e) energy_wh power_w
                       current_a voltage_v temperature_c).
    destruct (sampled_values_measurands (py_str e) energy_wh power_w
                current_a voltage_v temperature_c) as (He & Hp & Hc & Hv & Ht).
    rewrite !has_measurand_dec, He, Hp, Hc, Hv, Ht, Htid.
    repeat split; try assumption; try reflexivity;
      destruct (truthy (transaction_id o)); congruence.
  - intros z Hz.
    assert (Hsv :
      sampled_values_of (py_str e) energy_wh power_w (Some z) voltage_v temperature_c =
      sampled_values_of (py_str e) energy_wh power_w None voltage_v temperature_c /\
      sampled_values_of (py_str e) energy_wh power_w current_a (Some z) temperature_c =
      sampled_values_of (py_str e) energy_wh power_w current_a None temperature_c /\
      sampled_values_of (py_str e) energy_wh power_w current_a voltage_v (Some z) =
      sampled_values_of (py_str e) energy_wh power_w current_a voltage_v None).
    { unfold sampled_values_of. rewrite Hz. repeat split; reflexivity. }
    destruct Hsv as (H1 & H2 & H3).
    unfold send_meter_values, bind, ask_env, new_request_id. cbv beta iota zeta.
    rewrite H1, H2, H3. repeat split; reflexivity.
Qed.

Lemma optional_entries_present_iff_truthy_witness :
  num_truthy (NInt 0) = false /\
  send_meter_values (NInt 5000) (NInt 3700) (Some (NInt 0)) (Some (NInt 230)) None
    (scripted (1 # 2) []) simulator_init world0 =
  send_meter_values (NInt 5000) (NInt 3700) None (Some (NInt 230)) None
    (scripted (1 # 2) []) simulator_init world0.
Proof.
  split; [reflexivity |].
  apply (proj1 (proj2 (optional_entries_present_iff_truthy
                         (scripted (1 # 2) []) simulator_init world0
                         (NInt 5000) (NInt 3700) None (Some (NInt 230)) None))
           (NInt 0) eq_refl).
Defined.

Lemma start_transaction_answered
    (e : env) (o : simulator) (w : world) (frame : pyval) :
  answered e w frame ->
  start_transaction e o w =
  let w1 := after_stamped_call (start_frame e w) w in
  match getitem_int frame 0 with
  | Ret r0 =>
      if py_eq_int r0 3 then
        match (r2 <~ getitem_int frame 2 ;; getitem_str r2 "transactionId")%py with
        | Ret tid => (Ret true, {| transaction_id := tid |}, w1)
        | Raise x => (Raise x, o, w1)
        | Blocked => (Blocked, o, w1)
        | OutOfFuel => (OutOfFuel, o, w1)
        end
      else (Ret false, o, w1)
  | Raise x => (Raise x, o, w1)
  | Blocked => (Blocked, o, w1)
  | OutOfFuel => (OutOfFuel, o, w1)
  end.
Proof.
  intros [Hs Hr].
  unfold start_transaction, bind, new_request_id, timestamp_now, ws_send, ws_recv,
    json_loads, lift, ret, set_self.
  cbn. rewrite Hs. cbn. rewrite Hr. cbn.
  unfold after_stamped_call, start_frame, call_frame. cbn.
  destruct (getitem_int frame 0) as [r0 | | |]; try reflexivity.
  destruct (py_eq_int r0 3); try reflexivity.
  destruct (getitem_int frame 2) as [r2 | | |]; cbn; reflexivity.
Qed.

(** Whatever the transport does, a started stop tries to send exactly the
    StopTransaction frame and leaves the simulator object alone. *)
Lemma stop_transaction_sends
    (e : env) (o : simulator) (w : world) (meter_stop : num) :
  truthy (transaction_id o) = true ->
  snd (fst (stop_transaction meter_stop e o w)) = o /\
  trace (snd (stop_transaction meter_stop e o w)) =
    (trace w ++ [EvSend (stop_frame e o w meter_stop)])%list.
Proof.
  intros Ht.
  unfold stop_transaction, bind, get_self, new_request_id, timestamp_now,
    ws_send, ws_recv, ret.
  rewrite Ht. cbn. destruct (send_ok e (n_send w)); cbn; [| split; reflexivity].
  destruct (inbox e (n_recv w)) as [| | t]; cbn; split; reflexivity.
Qed.

Lemma stop_transaction_delivered
    (e : env) (o : simulator) (w : world) (meter_stop : num) (t : option pyval) :
  truthy (transaction_id o) = true ->
  send_ok e (n_send w) = true ->
  inbox e (n_recv w) = Text t ->
  stop_transaction meter_stop e o w =
  (Ret tt, o, after_stamped_call (stop_frame e o w meter_stop) w).
Proof.
  intros Ht Hs Hr.
  unfold stop_transaction, bind, get_self, new_request_id, timestamp_now,
    ws_send, ws_recv, ret.
  rewrite Ht. cbn. rewrite Hs. cbn. rewrite Hr. reflexivity.
Qed.

Lemma stop_transaction_idle
    (e : env) (o : simulator) (w : world) (meter_stop : num) :
  truthy (transaction_id o) = false ->
  stop_transaction meter_stop e o w = (Ret tt, o, w).
Proof.
  intros Ht. unfold stop_transaction, bind, get_self, ret. now rewrite Ht.
Qed.

(** C6, as the code has it. [start_transaction] sends one StartTransaction
    call.  When the answer is a result frame with a transactionId member
    it stores that id and returns True; when the answer's first element
    is not 3 it returns False and the object is unchanged; when the
    answer is a result frame without a transactionId member it raises
    KeyError, the object again unchanged. *)
Theorem start_transaction_outcomes
    (e : env) (o : simulator) (w : world) (frame : pyval)
    (Hans : answered e w frame) :
  let w1 := after_stamped_call (start_frame e w) w in
  (forall payload tid,
     result_frame frame payload ->
     dict_lookup payload "transactionId" = Some tid ->
     start_transaction e o w = (Ret true, {| transaction_id := tid |}, w1)) /\
  (forall x rest,
     frame = PList (x :: rest) ->
     py_eq_int x 3 = false ->
     start_transaction e o w = (Ret false, o, w1)) /\
  (forall payload,
     result_frame frame payload ->
     dict_lookup payload "transactionId" = None ->
     start_transaction e o w = (Raise KeyError, o, w1)).
Proof.
  intros w1. rewrite (start_transaction_answered e o w frame Hans). fold w1.
  cbv zeta. repeat split.
  - intros payload tid (x & id & rest & -> & Hx) Htid. cbn. now rewrite Hx, Htid.
  - intros x rest -> Hx. cbn. now rewrite Hx.
  - intros payload (x & id & rest & -> & Hx) Htid. cbn. now rewrite Hx, Htid.
Qed.

Lemma start_transaction_outcomes_witness :
  answered (scripted (1 # 2) [started_frame "call-0" (PInt 42)]) world0
    (started_frame "call-0" (PInt 42)) /\
  fst (start_transaction (scripted (1 # 2) [started_frame "call-0" (PInt 42)])
         simulator_init world0) =
  (Ret true, {| transaction_id := PInt 42 |}).
Proof.
  assert (H : answered (scripted (1 # 2) [started_frame "call-0" (PInt 42)]) world0
                (started_frame "call-0" (PInt 42))) by (split; reflexivity).
  split; [exact H |].
  rewrite (proj1 (start_transaction_outcomes _ simulator_init world0 _ H)
             [("transactionId", PInt 42)] (PInt 42)).
  - reflexivity.
  - exists (PInt 3), (PStr "call-0"), []. split; reflexivity.
  - reflexivity.
Defined.

(** A result frame that carries no transactionId makes [start_transaction]
    raise KeyError; it does not return False. *)
Lemma start_transaction_raises_without_id :
  start_transaction (scripted (1 # 2) [PList [PInt 3; PStr "call-0"; PDict []]])
    simulator_init world0 =
  (Raise KeyError, simulator_init,
   after_stamped_call
     (start_frame (scripted (1 # 2) [PList [PInt 3; PStr "call-0"; PDict []]]) world0)
     world0) /\
  fst (fst (start_transaction
              (scripted (1 # 2) [PList [PInt 3; PStr "call-0"; PDict []]])
              simulator_init world0)) <> Ret false.
Proof.
  split; [reflexivity | discriminate].
Qed.

(** C4, as the code has it. [stop_transaction] with a falsy stored id (in
    particular None, when no transaction was ever started) sends nothing,
    returns and changes neither the object nor the world; with a truthy
    stored id it tries to send exactly one StopTransaction frame, which
    carries the stored id and the given meterStop, and returns once
    anything comes back. *)
Theorem stop_transaction_outcomes
    (e : env) (o : simulator) (w : world) (meter_stop : num) :
  stop_transaction meter_stop e simulator_init w = (Ret tt, simulator_init, w) /\
  (truthy (transaction_id o) = false ->
   stop_transaction meter_stop e o w = (Ret tt, o, w)) /\
  (truthy (transaction_id o) = true ->
   snd (fst (stop_transaction meter_stop e o w)) = o /\
   trace (snd (stop_transaction meter_stop e o w)) =
     (trace w ++
      [EvSend (call_frame (uuid4 e (n_uuid w)) "StopTransaction"
                 (PDict [("transactionId", transaction_id o);
                         ("meterStop", num_val meter_stop);
                         ("timestamp", PStr (utcnow e (n_utc w) ++ "Z"))]))])%list /\
   (forall t,
      send_ok e (n_send w) = true ->
      inbox e (n_recv w) = Text t ->
      fst (fst (stop_transaction meter_stop e o w)) = Ret tt)).
Proof.
  split; [reflexivity | split].
  - apply stop_transaction_idle.
  - intros Ht. destruct (stop_transaction_sends e o w meter_stop Ht) as [Ho Htr].
    split; [exact Ho | split; [exact Htr |]].
    intros t Hs Hr. now rewrite (stop_transaction_delivered e o w meter_stop t Ht Hs Hr).
Qed.

Lemma stop_transaction_outcomes_witness :
  trace (snd (stop_transaction (NInt 1500) (scripted (1 # 2) [PDict []])
                {| transaction_id := PInt 42 |} world0)) =
  [EvSend (call_frame "call-0" "StopTransaction"
             (PDict [("transactionId", PInt 42);
                     ("meterStop", PInt 1500);
                     ("timestamp", PStr "2024-01-01T00:00:00Z")]))] /\
  stop_transaction (NInt 1500) (scripted (1 # 2) [])
    {| transaction_id := PInt 0 |} world0 =
  (Ret tt, {| transaction_id := PInt 0 |}, world0).
Proof.
  split.
  - apply (proj2 (proj2 (stop_transaction_outcomes (scripted (1 # 2) [PDict []])
                           {| transaction_id := PInt 42 |} world0 (NInt 1500)))
             eq_refl).
  - apply (proj1 (proj2 (stop_transaction_outcomes (scripted (1 # 2) [])
                           {| transaction_id := PInt 0 |} world0 (NInt 1500)))
             eq_refl).
Defined.

(** A transaction started with the server-assigned id 0 is active, yet
    [stop_transaction] sends no StopTransaction for it: the only frame
    that leaves is the StartTransaction call. *)
Lemma stop_transaction_skips_id_zero :
  start_then_stop (NInt 1500) (scripted (1 # 2) [started_frame "call-0" (PInt 0)])
    simulator_init world0 =
  (Ret true, {| transaction_id := PInt 0 |},
   after_stamped_call
     (start_frame (scripted (1 # 2) [started_frame "call-0" (PInt 0)]) world0) world0) /\
  trace (snd (start_then_stop (NInt 1500)
                (scripted (1 # 2) [started_frame "call-0" (PInt 0)])
                simulator_init world0)) =
  [EvSend (call_frame "call-0" "StartTransaction"
             (PDict [("connectorId", PInt 1);
                     ("idTag", PStr "TEST-TAG");
                     ("meterStart", PInt 1000);
                     ("timestamp", PStr "2024-01-01T00:00:00Z")]))].
Proof.
  split; reflexivity.
Qed.

(** ** Correlation of responses *)

(** C1, as the code has it. No call compares the id of the response with
    the id it generated, and there is no ProtocolViolation: whatever frame
    answers the call, with whatever id, GetConfiguration and
    ChangeConfiguration hand it to the caller unchanged, StartTransaction
    stores the transactionId of a result frame, and MeterValues and
    StopTransaction return without reading it. *)
Theorem responses_are_not_correlated
    (e : env) (w : world) (frame : pyval)
    (Hans : answered e w frame) :
  (forall o keys, fst (send_get_configuration keys e o w) = (Ret frame, o)) /\
  (forall o key value, fst (send_change_configuration key value e o w) = (Ret frame, o)) /\
  (forall o payload tid,
     result_frame frame payload ->
     dict_lookup payload "transactionId" = Some tid ->
     fst (start_transaction e o w) = (Ret true, {| transaction_id := tid |})) /\
  (forall o energy_wh power_w current_a voltage_v temperature_c,
     fst (send_meter_values energy_wh power_w current_a voltage_v temperature_c e o w)
     = (Ret tt, o)) /\
  (forall o meter_stop, fst (stop_transaction meter_stop e o w) = (Ret tt, o)).
Proof.
  pose proof Hans as [Hs Hr]. repeat split.
  - intros o keys.
    unfold send_get_configuration, bind, try_except, ws_send, ws_recv_wait_for,
      new_request_id.
    cbn. rewrite Hs. cbn. rewrite Hr. reflexivity.
  - intros o key value.
    now rewrite (send_change_configuration_answered e o w key value frame Hans).
  - intros o payload tid (x & id & rest & -> & Hx) Htid.
    rewrite (start_transaction_answered e o w _ Hans). cbn. now rewrite Hx, Htid.
  - intros o energy_wh power_w current_a voltage_v temperature_c.
    now rewrite (send_meter_values_delivered e o w (Some frame) _ _ _ _ _ Hs Hr).
  - intros o meter_stop. destruct (truthy (transaction_id o)) eqn:Ht.
    + now rewrite (stop_transaction_delivered e o w meter_stop (Some frame) Ht Hs Hr).
    + now rewrite (stop_transaction_idle e o w meter_stop Ht).
Qed.

Lemma responses_are_not_correlated_witness :
  answered (scripted (1 # 2) [status_frame "someone-else" "Accepted"]) world0
    (status_frame "someone-else" "Accepted") /\
  fst (send_change_configuration "HeartbeatInterval" (PStr "900")
         (scripted (1 # 2) [status_frame "someone-else" "Accepted"])
         validator_init world0) =
  (Ret (status_frame "someone-else" "Accepted"), validator_init).
Proof.
  assert (H : answered (scripted (1 # 2) [status_frame "someone-else" "Accepted"]) world0
                (status_frame "someone-else" "Accepted")) by (split; reflexivity).
  split; [exact H |].
  apply (proj1 (proj2 (responses_are_not_correlated _ world0 _ H))).
Defined.

(** A response whose id is not the id of the outstanding call is returned
    to the caller as that call's result, and a StartTransaction answered
    under a foreign id still starts the transaction. *)
Lemma mismatched_response_is_forwarded :
  (trace (snd (send_change_configuration "HeartbeatInterval" (PStr "900")
                 (scripted (1 # 2) [status_frame "someone-else" "Accepted"])
                 validator_init world0)) =
   [EvSend (call_frame "call-0" "ChangeConfiguration"
              (PDict [("key", PStr "HeartbeatInterval"); ("value", PStr "900")]))] /\
   fst (fst (send_change_configuration "HeartbeatInterval" (PStr "900")
               (scripted (1 # 2) [status_frame "someone-else" "Accepted"])
               validator_init world0)) =
   Ret (status_frame "someone-else" "Accepted") /\
   frame_id (status_frame "someone-else" "Accepted") <> Some (PStr "call-0")) /\
  (trace (snd (start_transaction
                 (scripted (1 # 2) [started_frame "someone-else" (PInt 42)])
                 simulator_init world0)) =
   [EvSend (call_frame "call-0" "StartTransaction"
              (PDict [("connectorId", PInt 1);
                      ("idTag", PStr "TEST-TAG");
                      ("meterStart", PInt 1000);
                      ("timestamp", PStr "2024-01-01T00:00:00Z")]))] /\
   fst (start_transaction
          (scripted (1 # 2) [started_frame "someone-else" (PInt 42)])
          simulator_init world0) =
   (Ret true, {| transaction_id := PInt 42 |}) /\
   frame_id (started_frame "someone-else" (PInt 42)) <> Some (PStr "call-0")).
Proof.
  repeat split; try reflexivity; discriminate.
Qed.

(** ** Arithmetic of the readings *)

Local Open Scope Q_scope.










(** *** One tick *)

Lemma charging_tick_delivered
    (e : env) (o : simulator) (w : world) (interval_seconds energy_wh : Q)
    (t : option pyval) :
  send_ok e (n_send w) = true ->
  inbox e (n_recv w) = Text t ->
  charging_tick interval_seconds energy_wh e o w =
  (Ret (energy_wh + (power_drawn e (n_rand w) * interval_seconds) / 3600), o,
   after_tick e o w interval_seconds energy_wh).
Proof.
  intros Hs Hr.
  unfold charging_tick, bind, random_uniform. cbv beta iota zeta.
  set (w3 := {| n_uuid := n_uuid w; n_utc := n_utc w; n_time := n_time w;
                n_rand := S (S (S (n_rand w))); n_send := n_send w;
                n_recv := n_recv w; trace := trace w |}).
  match goal with
  | |- context [send_meter_values ?a ?b ?c ?d ?f e o ?w'] =>
      change w' with w3;
      rewrite (send_meter_values_delivered e o w3 t a b c d f Hs Hr)
  end.
  reflexivity.
Qed.



(** *** The energy accumulated by the loop *)






Lemma loop_guard (duration_seconds now start_time : Q) :
  negb (Qle_bool duration_seconds (now - start_time)) = true <->
  now - start_time < duration_seconds.
Proof.
  rewrite negb_true_iff. split.
  - intros H. apply Qnot_le_lt. intros Hle. apply Qle_bool_iff in Hle. congruence.
  - intros H. destruct (Qle_bool duration_seconds (now - start_time)) eqn:Hb;
      [| reflexivity].
    apply Qle_bool_iff in Hb. lra.
Qed.




(** ** Sample runs *)

Example str_int_samples :
  (str_int 5000, str_int 0, str_int (-12)) = ("5000", "0", "-12")%string.
Proof. reflexivity. Qed.

Example py_int_samples :
  (py_int (7 # 2), py_int (- (7 # 2)), py_int 1000) = (3, -3, 1000)%Z.
Proof. reflexivity. Qed.

(** [round(0.25, 1) == 0.2], [round(0.75, 1) == 0.8], [round(32.17, 1) == 32.2] *)
Example py_round1_samples :
  py_round1 (1 # 4) == 2 # 10 /\ py_round1 (3 # 4) == 8 # 10 /\
  py_round1 (3217 # 100) == 322 # 10.
Proof. repeat split; reflexivity. Qed.

(** A session of twelve seconds with a tick every five, the power
    perturbation being 0 at each tick: two ticks, 1010 Wh and 1020 Wh
    reported, and the transaction stopped at 1020 Wh. *)
Example session_run :
  let run := simulate_charging_session 10 12 5
               (steady (1 # 2) (started_frame "any" (PInt 7)))
               simulator_init world0 in
  fst run = (Ret tt, {| transaction_id := PInt 7 |}) /\
  map (fun ev =>
         match ev with
         | EvSend (PList [_; _; PStr action; _]) => action
         | EvSend _ => "?"
         | EvSleep _ => "sleep"
         end) (trace (snd run)) =
    ["StartTransaction"; "MeterValues"; "sleep"; "MeterValues"; "sleep";
     "StopTransaction"]%string /\
  nth_error (trace (snd run)) 5 =
    Some (EvSend (call_frame "call-3" "StopTransaction"
                    (PDict [("transactionId", PInt 7);
                            ("meterStop", PInt 1020);
                            ("timestamp", PStr "2024-01-01T00:00:00Z")]))).
Proof. vm_compute. repeat split; reflexivity. Qed.

(** A timeout makes a validator call hand back the empty dict, on which
    the read-only check records a failure. *)
Example readonly_check_on_timeout :
  test_readonly_rejection (scripted (1 # 2) []) validator_init world0 =
  (Ret false, {| test_results := [("Read-only rejection", false)] |},
   after_call (call_frame "call-0" "ChangeConfiguration"
                 (PDict [("key", PStr "ChargeProfileMaxStackLevel");
                         ("value", PStr "20")])) world0).
Proof. reflexivity. Qed.

Local Close Scope Q_scope.

(** ** The validator's calls *)

Lemma send_get_configuration_total
    (e : env) (o : validator) (w : world) (keys : option (list string)) :
  exists r w', send_get_configuration keys e o w = (Ret r, o, w').
Proof.
  unfold send_get_configuration, bind, try_except, ws_send, ws_recv_wait_for,
    new_request_id, json_loads, ret, raise.
  cbn. destruct (send_ok e (n_send w)); cbn; [| eauto].
  destruct (inbox e (n_recv w)) as [| | [v |]]; cbn; eauto.
Qed.

(** Neither [send_get_configuration] nor [send_change_configuration] ever
    raises or blocks: each tries to send exactly one call frame, leaves the
    validator untouched, and hands back either the frame that answered or,
    when the send failed, nothing came in time, the connection closed or
    the text was not JSON, the empty dict.  GetConfiguration carries a
    [key] member only for a non-empty list of keys. *)
Theorem validator_calls_never_raise
    (e : env) (o : validator) (w : world) :
  (forall keys,
     exists r w',
       send_get_configuration keys e o w = (Ret r, o, w') /\
       trace w' =
         (trace w ++
          [EvSend (call_frame (uuid4 e (n_uuid w)) "GetConfiguration"
                     match keys with
                     | Some (k :: ks) => PDict [("key", PList (map PStr (k :: ks)))]
                     | _ => PDict []
                     end)])%list /\
       (answered e w r \/ (r = PDict [] /\ forall f, ~ answered e w f))) /\
  (forall key value,
     exists r w',
       send_change_configuration key value e o w = (Ret r, o, w') /\
       trace w' =
         (trace w ++
          [EvSend (call_frame (uuid4 e (n_uuid w)) "ChangeConfiguration"
                     (PDict [("key", PStr key); ("value", value)]))])%list /\
       (answered e w r \/ (r = PDict [] /\ forall f, ~ answered e w f))).
Proof.
  split; [intros keys | intros key value];
    unfold send_get_configuration, send_change_configuration, bind, try_except,
      ws_send, ws_recv_wait_for, new_request_id, json_loads, ret, raise, answered;
    cbn;
    (destruct (send_ok e (n_send w)) eqn:Hs; cbn;
     [| eexists _, _; split; [reflexivity | split; [reflexivity |]];
        right; split; [reflexivity | intros f [H _]; congruence]]);
    (destruct (inbox e (n_recv w)) as [| | [v |]] eqn:Hr; cbn;
     eexists _, _; (split; [reflexivity | split; [reflexivity |]]);
     try (right; split; [reflexivity | intros f [_ H]; congruence]));
    left; split; reflexivity.
Qed.

(** ** Operations on values end *)

Lemma rbind_ends {A B} (r : result A) (f : A -> result B) :
  ends r -> (forall a, ends (f a)) -> ends (rbind r f).
Proof. destruct r; cbn; auto. Qed.

Lemma getitem_int_ends (v : pyval) (i : nat) : ends (getitem_int v i).
Proof.
  destruct v; cbn; auto.
  - destruct (String.get i s); exact I.
  - destruct (nth_error l i); exact I.
Qed.

Lemma getitem_str_ends (v : pyval) (k : string) : ends (getitem_str v k).
Proof. destruct v; cbn; auto. destruct (dict_lookup d k); exact I. Qed.

Lemma dict_get_ends (v : pyval) (k : string) (d : pyval) : ends (dict_get v k d).
Proof. destruct v; cbn; auto. destruct (dict_lookup d0 k); exact I. Qed.

Lemma is_call_result_ends (r : pyval) : ends (is_call_result r).
Proof.
  unfold is_call_result. destruct (truthy r); [| exact I].
  apply rbind_ends; [apply getitem_int_ends | intros; exact I].
Qed.

Lemma get_status_ends (r : pyval) : ends (get_status r).
Proof.
  apply rbind_ends; [apply getitem_int_ends | intros; apply dict_get_ends].
Qed.

Lemma get_config_keys_ends (r : pyval) : ends (get_config_keys r).
Proof.
  apply rbind_ends; [apply getitem_int_ends | intros; apply dict_get_ends].
Qed.

Lemma first_value_is_ends (ck : pyval) (v : string) : ends (first_value_is ck v).
Proof.
  unfold first_value_is. destruct (truthy ck); [| exact I].
  apply rbind_ends; [apply getitem_int_ends | intros].
  apply rbind_ends; [apply dict_get_ends | intros; exact I].
Qed.

Lemma py_len_ends (v : pyval) : ends (py_len v).
Proof. destruct v; exact I. Qed.

Lemma py_iter_ends (v : pyval) : ends (py_iter v).
Proof. destruct v; exact I. Qed.

Lemma py_contains_str_ends (v : pyval) (s : string) : ends (py_contains_str v s).
Proof. destruct v; exact I. Qed.

Lemma map_result_ends {A B} (f : A -> result B) (l : list A) :
  (forall a, ends (f a)) -> ends (map_result f l).
Proof.
  intros Hf. induction l as [| x l IH]; cbn [map_result]; [exact I |].
  apply rbind_ends; [apply Hf | intros].
  apply rbind_ends; [exact IH | intros; exact I].
Qed.

Lemma key_names_ends (l : list pyval) :
  ends (map_result (fun k => getitem_str k "key") l).
Proof. apply map_result_ends. intros. apply getitem_str_ends. Qed.

Lemma readonly_flagged_ends (l : list pyval) : ends (readonly_flagged l).
Proof.
  induction l as [| x l IH]; cbn [readonly_flagged]; [exact I |].
  apply rbind_ends; [apply getitem_str_ends | intros k].
  destruct (py_in_strs k readonly_keys); [| exact IH].
  apply rbind_ends; [apply dict_get_ends | intros flag].
  destruct (truthy flag); [exact IH | exact I].
Qed.

Create HintDb ends.

#[local] Hint Resolve getitem_int_ends getitem_str_ends dict_get_ends
  is_call_result_ends get_status_ends get_config_keys_ends first_value_is_ends
  py_len_ends py_iter_ends py_contains_str_ends key_names_ends
  readonly_flagged_ends : ends.

(** ** What the checks record *)

Ltac call_step :=
  match goal with
  | |- context [send_change_configuration ?k ?v ?e ?o ?w] =>
      let r := fresh "r" in
      let w' := fresh "w" in
      let H := fresh "H" in
      destruct (send_change_configuration_total e o w k v) as (r & w' & H & _);
      rewrite H; clear H; cbv beta iota
  | |- context [send_get_configuration ?k ?e ?o ?w] =>
      let r := fresh "r" in
      let w' := fresh "w" in
      let H := fresh "H" in
      destruct (send_get_configuration_total e o w k) as (r & w' & H);
      rewrite H; clear H; cbv beta iota
  end.

Ltac split_on x :=
  first
    [ let H := fresh "Hends" in
      assert (H : ends x) by auto with ends;
      destruct x; cbn [ends] in H; [ | | contradiction H | contradiction H ];
      clear H; cbv beta iota
    | destruct x; cbv beta iota ].

Ltac case_step :=
  match goal with
  | |- context [match ?x with _ => _ end] =>
      lazymatch x with
      | context [match _ with _ => _ end] => fail
      | _ => split_on x
      end
  | |- context [if ?x then _ else _] =>
      lazymatch x with
      | context [match _ with _ => _ end] => fail
      | _ => split_on x
      end
  end.

Ltac run_check :=
  unfold bind, lift, ret, append_result, sleep; cbv beta iota;
  repeat (call_step || case_step);
  cbn [records test_results]; auto.

Lemma test_readonly_rejection_records (e : env) (o : validator) (w : world) :
  records "Read-only rejection" o (test_readonly_rejection e o w).
Proof. unfold test_readonly_rejection. run_check. Qed.

Lemma test_reboot_required_keys_records (e : env) (o : validator) (w : world) :
  records "Reboot required" o (test_reboot_required_keys e o w).
Proof. unfold test_reboot_required_keys. run_check. Qed.

Lemma test_csv_validation_records (e : env) (o : validator) (w : world) :
  records "CSV validation" o (test_csv_validation e o w).
Proof. unfold test_csv_validation. run_check. Qed.

Lemma test_persistence_records (e : env) (o : validator) (w : world) :
  records "Configuration persistence" o (test_persistence e o w).
Proof. unfold test_persistence. run_check. Qed.

Lemma test_get_specific_keys_records (e : env) (o : validator) (w : world) :
  records "Get specific keys" o (test_get_specific_keys e o w).
Proof. unfold test_get_specific_keys. run_check. Qed.

Lemma test_get_all_configuration_records (e : env) (o : validator) (w : world) :
  records "Get all configuration" o (test_get_all_configuration e o w).
Proof. unfold test_get_all_configuration. run_check. Qed.

Lemma test_change_configuration_records (e : env) (o : validator) (w : world) :
  records "Change configuration" o (test_change_configuration e o w).
Proof. unfold test_change_configuration. run_check. Qed.

Lemma invalid_values_loop_object (e : env) (o : validator) :
  forall cases all_passed w,
    match invalid_values_loop cases all_passed e o w with
    | (Ret _, o', _) => o' = o
    | (Raise _, o', _) => o' = o
    | _ => False
    end.
Proof.
  induction cases as [| [[key value] descr] rest IH]; intros all_passed w.
  - reflexivity.
  - cbn [invalid_values_loop]. unfold bind, lift, ret. cbv beta iota.
    call_step.
    repeat (match goal with
            | |- context [invalid_values_loop rest ?b e o ?w'] => fail 1
            | _ => case_step
            end); try reflexivity; apply IH.
Qed.

Lemma test_invalid_values_records (e : env) (o : validator) (w : world) :
  records "Invalid value rejection" o (test_invalid_values e o w).
Proof.
  unfold test_invalid_values, bind, ret, append_result.
  pose proof (invalid_values_loop_object e o test_cases true w) as H.
  destruct (invalid_values_loop test_cases true e o w) as [[[[|] | x | |] o'] w'];
    try contradiction; subst o'; cbn; auto.
Qed.

(** The checks paired with the names under which they record. *)
Lemma tests_named :
  tests = map snd (combine test_names tests) /\
  forall name test,
    In (name, test) (combine test_names tests) ->
    forall e o w, records name o (test e o w).
Proof.
  split; [reflexivity |].
  intros name test Hin e o w. cbn in Hin.
  repeat (destruct Hin as [[= <- <-] | Hin];
          [auto using test_get_all_configuration_records,
             test_get_specific_keys_records, test_change_configuration_records,
             test_readonly_rejection_records, test_invalid_values_records,
             test_csv_validation_records, test_reboot_required_keys_records,
             test_persistence_records |]).
  contradiction.
Qed.




(** ** The verdicts of the remaining checks *)

Lemma py_in_strs_two (v : pyval) (a b : string) :
  py_in_strs v [a; b] = py_eq_str v a || py_eq_str v b.
Proof. unfold py_in_strs. cbn. now rewrite orb_false_r. Qed.

Lemma test_reboot_required_keys_run
    (e : env) (o : validator) (w : world) (frame : pyval) :
  answered e w frame ->
  test_reboot_required_keys e o w =
  let w1 := after_call (call_frame (uuid4 e (n_uuid w)) "ChangeConfiguration"
                          (PDict [("key", PStr "WebSocketPingInterval");
                                  ("value", PStr "120")])) w in
  match status_verdict ["RebootRequired"; "Accepted"] frame with
  | Ret b =>
      (Ret b, {| test_results := test_results o ++ [("Reboot required", b)] |}, w1)
  | Raise x => (Raise x, o, w1)
  | Blocked => (Blocked, o, w1)
  | OutOfFuel => (OutOfFuel, o, w1)
  end.
Proof.
  intros Hans. unfold test_reboot_required_keys, bind.
  rewrite (send_change_configuration_answered e o w _ _ frame Hans).
  unfold status_verdict, lift, ret, append_result. cbv beta iota zeta.
  destruct (is_call_result frame) as [[|] | | |]; cbn [rbind]; try reflexivity.
  destruct (get_status frame) as [st | | |]; cbn [rbind]; try reflexivity.
  rewrite py_in_strs_two.
  destruct (py_eq_str st "RebootRequired"); [reflexivity |].
  destruct (py_eq_str st "Accepted"); reflexivity.
Qed.

(** The reboot-required check sends ChangeConfiguration for
    WebSocketPingInterval = "120"; when the call is answered by a frame it
    passes exactly when the frame is a result with status RebootRequired
    or Accepted, and whenever it returns at all, with True or with False,
    it has recorded that verdict under "Reboot required". *)
Theorem reboot_check_verdict
    (e : env) (o : validator) (w : world) (frame : pyval)
    (Hans : answered e w frame) :
  (fst (fst (test_reboot_required_keys e o w)) = Ret true <->
   result_with_status frame "RebootRequired" \/ result_with_status frame "Accepted") /\
  (forall b,
     fst (fst (test_reboot_required_keys e o w)) = Ret b ->
     test_reboot_required_keys e o w =
     (Ret b, {| test_results := test_results o ++ [("Reboot required", b)] |},
      after_call (call_frame (uuid4 e (n_uuid w)) "ChangeConfiguration"
                    (PDict [("key", PStr "WebSocketPingInterval");
                            ("value", PStr "120")])) w)).
Proof.
  rewrite (test_reboot_required_keys_run e o w frame Hans). cbv zeta.
  assert (Hv : status_verdict ["RebootRequired"; "Accepted"] frame = Ret true <->
               result_with_status frame "RebootRequired" \/
               result_with_status frame "Accepted").
  { rewrite status_verdict_true. split.
    - intros (s & [<- | [<- | []]] & H); auto.
    - intros [H | H]; eexists; (split; [| exact H]); cbn; auto. }
  rewrite <- Hv.
  destruct (status_verdict ["RebootRequired"; "Accepted"] frame) as [b | x | |];
    cbn [fst]; (split; [tauto || (split; congruence) |]).
  - intros b' [= <-]. reflexivity.
  - intros b' H; discriminate H.
  - intros b' H; discriminate H.
  - intros b' H; discriminate H.
Qed.

Lemma reboot_check_verdict_witness :
  fst (fst (test_reboot_required_keys
              (scripted (1 # 2) [status_frame "call-0" "RebootRequired"])
              validator_init world0)) = Ret true.
Proof.
  apply (proj1 (reboot_check_verdict
                  (scripted (1 # 2) [status_frame "call-0" "RebootRequired"])
                  validator_init world0 (status_frame "call-0" "RebootRequired")
                  (conj eq_refl eq_refl))).
  left. exists [("status", PStr "RebootRequired")]. split; [| reflexivity].
  exists (PInt 3), (PStr "call-0"), []. split; reflexivity.
Defined.





Lemma contains_str_list (l : list pyval) (s : string) :
  existsb (fun x => py_eq_str x s) l = true <-> In (PStr s) l.
Proof.
  rewrite existsb_exists. split.
  - intros (x & Hin & Hx). apply py_eq_str_true in Hx. now subst.
  - intros Hin. exists (PStr s). split; [exact Hin | now apply py_eq_str_true].
Qed.

(** The specific-keys check asks for HeartbeatInterval, UnknownKey and
    MeterValueSampleInterval.  On a result whose configurationKey is a
    list and whose unknownKey is a list (or is missing, which counts as
    the empty list) it passes exactly when configurationKey has two
    entries, whatever they are, and "UnknownKey" is among unknownKey; a
    failure on such a result is returned without being recorded. *)
Theorem specific_keys_check_verdict
    (e : env) (o : validator) (w : world) (frame : pyval)
    (payload : list (string * pyval)) (known unknown : list pyval)
    (Hans : answered e w frame)
    (Hframe : result_frame frame payload)
    (Hknown : dict_lookup payload "configurationKey" = Some (PList known))
    (Hunknown : dict_lookup payload "unknownKey" = Some (PList unknown) \/
                (dict_lookup payload "unknownKey" = None /\ unknown = [])) :
  let w1 := after_call
              (call_frame (uuid4 e (n_uuid w)) "GetConfiguration"
                 (PDict [("key", PList [PStr "HeartbeatInterval"; PStr "UnknownKey";
                                        PStr "MeterValueSampleInterval"])])) w in
  (fst (fst (test_get_specific_keys e o w)) = Ret true <->
   length known = 2%nat /\ In (PStr "UnknownKey") unknown) /\
  (length known = 2%nat /\ In (PStr "UnknownKey") unknown ->
   test_get_specific_keys e o w =
   (Ret true, {| test_results := test_results o ++ [("Get specific keys", true)] |}, w1)) /\
  (~ (length known = 2%nat /\ In (PStr "UnknownKey") unknown) ->
   test_get_specific_keys e o w = (Ret false, o, w1)).
Proof.
  intros w1.
  assert (Hrun :
    test_get_specific_keys e o w =
    if (Z.of_nat (length known) =? 2)%Z && existsb (fun x => py_eq_str x "UnknownKey") unknown
    then (Ret true,
          {| test_results := test_results o ++ [("Get specific keys", true)] |}, w1)
    else (Ret false, o, w1)).
  { unfold test_get_specific_keys, bind.
    rewrite (send_get_configuration_answered e o w _ _ frame Hans). fold w1.
    unfold lift, ret, append_result. cbv beta iota.
    rewrite (result_frame_is_call_result _ _ Hframe). cbv beta iota.
    rewrite (result_frame_get_config_keys _ _ Hframe), Hknown. cbv beta iota.
    destruct Hframe as (x & id & rest & -> & Hx). cbn [getitem_int nth_error].
    cbv beta iota.
    assert (Hget : dict_get (PDict payload) "unknownKey" (PList []) = Ret (PList unknown)).
    { cbn. destruct Hunknown as [-> | [-> ->]]; reflexivity. }
    rewrite Hget. cbv beta iota. cbn [py_len py_contains_str]. cbv beta iota.
    destruct (Z.of_nat (length known) =? 2)%Z; cbn [negb andb]; [| reflexivity].
    destruct (existsb (fun x0 => py_eq_str x0 "UnknownKey") unknown); reflexivity. }
  assert (Hcond :
    (Z.of_nat (length known) =? 2)%Z && existsb (fun x => py_eq_str x "UnknownKey") unknown
    = true <-> length known = 2%nat /\ In (PStr "UnknownKey") unknown).
  { rewrite andb_true_iff, Z.eqb_eq, contains_str_list. split; intros [H1 H2]; split;
      auto; lia. }
  rewrite Hrun.
  destruct ((Z.of_nat (length known) =? 2)%Z &&
            existsb (fun x => py_eq_str x "UnknownKey") unknown).
  - destruct (proj1 Hcond eq_refl) as [Hlen Hin].
    split; [split; [intros _; split; assumption | reflexivity] |].
    split; [reflexivity |]. intros Hno. exfalso. apply Hno. split; assumption.
  - assert (Hno : ~ (length known = 2%nat /\ In (PStr "UnknownKey") unknown))
      by (intros Hyes; apply Hcond in Hyes; discriminate Hyes).
    split; [split; [intros Habs; discriminate Habs | intros Hyes; contradiction] |].
    split; [intros Hyes; contradiction | reflexivity].
Qed.

(** *** The full listing *)

Lemma key_names_of (ds : list (list (string * pyval))) :
  (forall d, In d ds -> exists k, dict_lookup d "key" = Some k) ->
  exists names,
    map_result (fun k => getitem_str k "key") (map PDict ds) = Ret names /\
    forall v, In v names <-> exists d, In d ds /\ dict_lookup d "key" = Some v.
Proof.
  induction ds as [| d ds IH]; intros Hkey.
  - exists []. split; [reflexivity |]. intros v. split; [intros [] | intros (d & [] & _)].
  - destruct (Hkey d (or_introl eq_refl)) as [k Hk].
    destruct IH as (names & Hnames & Hin).
    { intros d' Hd'. apply Hkey. now right. }
    exists (k :: names). split.
    + cbn [map map_result getitem_str]. rewrite Hk. cbn [rbind].
      now rewrite Hnames.
    + intros v. cbn [In]. rewrite Hin. split.
      * intros [<- | (d' & Hd' & Hv)]; [exists d | exists d']; auto.
      * intros (d' & [<- | Hd'] & Hv); [left; congruence | right; eauto].
Qed.

Lemma essential_present_true (keys : list string) (names : list pyval) :
  essential_present keys names = true <-> forall k, In k keys -> In (PStr k) names.
Proof.
  induction keys as [| key rest IH]; cbn [essential_present].
  - split; [intros _ k [] | reflexivity].
  - destruct (existsb (fun v => py_eq_str v key) names) eqn:Hex.
    + apply contains_str_list in Hex. rewrite IH. split.
      * intros H k [<- | Hk]; auto.
      * intros H k Hk. apply H. now right.
    + split; [discriminate |]. intros H.
      assert (Hin : In (PStr key) names) by (apply H; now left).
      apply contains_str_list in Hin. congruence.
Qed.

Lemma readonly_flagged_of (ds : list (list (string * pyval))) :
  (forall d, In d ds -> exists k, dict_lookup d "key" = Some k) ->
  exists b,
    readonly_flagged (map PDict ds) = Ret b /\
    (b = true <->
     forall d k,
       In d ds -> dict_lookup d "key" = Some (PStr k) -> In k readonly_keys ->
       exists flag, dict_lookup d "readonly" = Some flag /\ truthy flag = true).
Proof.
  induction ds as [| d ds IH]; intros Hkey.
  - exists true. split; [reflexivity |]. split; [intros _ d k [] | reflexivity].
  - destruct (Hkey d (or_introl eq_refl)) as [kv Hkv].
    destruct IH as (b & Hb & Hiff).
    { intros d' Hd'. apply Hkey. now right. }
    cbn [map readonly_flagged getitem_str]. rewrite Hkv. cbn [rbind].
    destruct (py_in_strs kv readonly_keys) eqn:Hro.
    + apply py_in_strs_true in Hro as (s & Hs & ->).
      cbn [dict_get].
      destruct (dict_lookup d "readonly") as [flag |] eqn:Hflag; cbn [rbind].
      * destruct (truthy flag) eqn:Ht.
        -- exists b. split; [exact Hb |]. rewrite Hiff. split.
           ++ intros H d' k [<- | Hd'] Hk Hin; [eauto | eauto].
           ++ intros H d' k Hd'. apply H. now right.
        -- exists false. split; [reflexivity |]. split; [discriminate |].
           intros H. destruct (H d s (or_introl eq_refl) Hkv Hs) as (flag' & Hf & Ht').
           congruence.
      * cbn [truthy]. exists false. split; [reflexivity |]. split; [discriminate |].
        intros H. destruct (H d s (or_introl eq_refl) Hkv Hs) as (flag' & Hf & _).
        congruence.
    + exists b. split; [exact Hb |]. rewrite Hiff. split.
      * intros H d' k [<- | Hd'] Hk Hin; [| eauto].
        exfalso. assert (Hyes : py_in_strs kv readonly_keys = true).
        { apply py_in_strs_true. exists k. split; [exact Hin | congruence]. }
        congruence.
      * intros H d' k Hd'. apply H. now right.
Qed.

(** The full-listing check asks GetConfiguration without keys.  On a
    result whose configurationKey is a list of dicts that all have a
    ["key"] member, it passes exactly when the list has at least ten
    entries, each of the four essential names is the key of some entry,
    and every entry whose key is ChargeProfileMaxStackLevel or
    SupportedFeatureProfiles has a truthy ["readonly"] member.  A pass is
    recorded; a failure on such a result is returned without being
    recorded. *)
Theorem full_listing_check_verdict
    (e : env) (o : validator) (w : world) (frame : pyval)
    (payload : list (string * pyval)) (ds : list (list (string * pyval)))
    (Hans : answered e w frame)
    (Hframe : result_frame frame payload)
    (Hlist : dict_lookup payload "configurationKey" = Some (PList (map PDict ds)))
    (Hkeys : forall d, In d ds -> exists k, dict_lookup d "key" = Some k) :
  let w1 := after_call (call_frame (uuid4 e (n_uuid w)) "GetConfiguration" (PDict [])) w in
  let conforms :=
    (10 <= length ds)%nat /\
    (forall k, In k essential_keys ->
               exists d, In d ds /\ dict_lookup d "key" = Some (PStr k)) /\
    (forall d k,
       In d ds -> dict_lookup d "key" = Some (PStr k) -> In k readonly_keys ->
       exists flag, dict_lookup d "readonly" = Some flag /\ truthy flag = true) in
  (fst (fst (test_get_all_configuration e o w)) = Ret true <-> conforms) /\
  (conforms ->
   test_get_all_configuration e o w =
   (Ret true,
    {| test_results := test_results o ++ [("Get all configuration", true)] |}, w1)) /\
  (~ conforms -> test_get_all_configuration e o w = (Ret false, o, w1)).
Proof.
  intros w1 conforms.
  destruct (key_names_of ds Hkeys) as (names & Hnames & Hin).
  destruct (readonly_flagged_of ds Hkeys) as (b & Hb & Hflag).
  assert (Hrun :
    test_get_all_configuration e o w =
    if negb (Z.of_nat (length ds) <? 10)%Z
       && essential_present essential_keys names && b
    then (Ret true,
          {| test_results := test_results o ++ [("Get all configuration", true)] |}, w1)
    else (Ret false, o, w1)).
  { unfold test_get_all_configuration, bind.
    assert (Hcall : send_get_configuration None e o w = (Ret frame, o, w1)).
    { destruct Hans as [Hs Hr].
      unfold send_get_configuration, bind, try_except, ws_send, ws_recv_wait_for,
        new_request_id.
      cbn. rewrite Hs. cbn. rewrite Hr. reflexivity. }
    rewrite Hcall. unfold lift, ret, append_result. cbv beta iota.
    rewrite (result_frame_is_call_result _ _ Hframe). cbv beta iota.
    rewrite (result_frame_get_config_keys _ _ Hframe), Hlist. cbv beta iota.
    cbn [py_len py_iter]. cbv beta iota. rewrite length_map.
    destruct (Z.of_nat (length ds) <? 10)%Z; cbn [negb andb]; [reflexivity |].
    rewrite Hnames. cbv beta iota.
    destruct (essential_present essential_keys names); cbn [negb andb]; [| reflexivity].
    rewrite Hb. cbv beta iota. destruct b; reflexivity. }
  assert (Hcond :
    negb (Z.of_nat (length ds) <? 10)%Z && essential_present essential_keys names && b
    = true <-> conforms).
  { unfold conforms. rewrite !andb_true_iff, negb_true_iff, Z.ltb_ge,
      essential_present_true, Hflag.
    split.
    - intros [[H1 H2] H3]. split; [lia | split; [| exact H3]].
      intros k Hk. apply Hin, H2, Hk.
    - intros (H1 & H2 & H3). split; [split; [lia |] | exact H3].
      intros k Hk. apply Hin, H2, Hk. }
  rewrite Hrun.
  destruct (negb (Z.of_nat (length ds) <? 10)%Z
            && essential_present essential_keys names && b).
  - assert (Hyes : conforms) by (apply Hcond; reflexivity).
    split; [split; [intros _; exact Hyes | reflexivity] |].
    split; [reflexivity |]. intros Hno. contradiction.
  - assert (Hno : ~ conforms) by (intros Hyes; apply Hcond in Hyes; discriminate Hyes).
    split; [split; [intros Habs; discriminate Habs | intros Hyes; contradiction] |].
    split; [intros Hyes; contradiction | reflexivity].
Qed.

Lemma full_listing_check_verdict_witness :
  test_get_all_configuration
    (scripted (1 # 2) [listing_frame "call-0" full_listing []])
    validator_init world0 =
  (Ret true, {| test_results := [("Get all configuration", true)] |},
   after_call (call_frame "call-0" "GetConfiguration" (PDict [])) world0).
Proof.
  apply (proj1 (proj2 (full_listing_check_verdict
           (scripted (1 # 2) [listing_frame "call-0" full_listing []])
           validator_init world0 (listing_frame "call-0" full_listing [])
           [("configurationKey", PList (map PDict full_listing));
            ("unknownKey", PList [])]
           full_listing
           (conj eq_refl eq_refl)
           (ex_intro _ (PInt 3) (ex_intro _ (PStr "call-0")
              (ex_intro _ [] (conj eq_refl eq_refl))))
           eq_refl
           (fun d Hd => ltac:(
              cbn in Hd;
              repeat (destruct Hd as [<- | Hd]; [eexists; reflexivity |]);
              contradiction))))).
  split; [cbn; lia | split].
  - intros k Hk. cbn in Hk.
    repeat (destruct Hk as [<- | Hk];
            [first
               [ exists (config_entry "HeartbeatInterval" "300" false);
                 split; [cbn; tauto | reflexivity]
               | exists (config_entry "MeterValueSampleInterval" "60" false);
                 split; [cbn; tauto | reflexivity]
               | exists (config_entry "LocalAuthorizeOffline" "true" false);
                 split; [cbn; tauto | reflexivity]
               | exists (config_entry "ChargeProfileMaxStackLevel" "10" true);
                 split; [cbn; tauto | reflexivity] ] |]).
    contradiction.
  - intros d k Hd Hkey Hro. cbn in Hd.
    repeat (destruct Hd as [Hd | Hd];
            [subst d; cbn in Hkey; injection Hkey as Hk; subst k;
             first [ eexists; split; reflexivity
                   | exfalso; cbn in Hro; intuition discriminate ] |]).
    contradiction.
Defined.

Lemma specific_keys_check_verdict_witness :
  test_get_specific_keys
    (scripted (1 # 2)
       [listing_frame "call-0"
          [config_entry "HeartbeatInterval" "300" false;
           config_entry "MeterValueSampleInterval" "60" false]
          ["UnknownKey"]])
    validator_init world0 =
  (Ret true, {| test_results := [("Get specific keys", true)] |},
   after_call
     (call_frame "call-0" "GetConfiguration"
        (PDict [("key", PList [PStr "HeartbeatInterval"; PStr "UnknownKey";
                               PStr "MeterValueSampleInterval"])])) world0).
Proof.
  apply (proj1 (proj2 (specific_keys_check_verdict
           (scripted (1 # 2)
              [listing_frame "call-0"
                 [config_entry "HeartbeatInterval" "300" false;
                  config_entry "MeterValueSampleInterval" "60" false]
                 ["UnknownKey"]])
           validator_init world0 _ _ _ [PStr "UnknownKey"]
           (conj eq_refl eq_refl)
           (ex_intro _ (PInt 3) (ex_intro _ (PStr "call-0")
              (ex_intro _ [] (conj eq_refl eq_refl))))
           eq_refl (or_introl eq_refl)))).
  split; [reflexivity | left; reflexivity].
Defined.

(** ** The simulator's calls *)

(** The simulator's calls have no timeout and no error handling.  When
    the frame is sent and nothing ever comes back, each of them stays
    blocked on its [recv()], the frame sent and the object untouched;
    when the connection is closed instead, each raises. *)
Theorem simulator_calls_wait_for_ever
    (e : env) (o : simulator) (w : world)
    (Hs : send_ok e (n_send w) = true) :
  (inbox e (n_recv w) = Silent ->
   send_boot_notification e o w = (Blocked, o, waiting 0 (boot_frame e w) w) /\
   start_transaction e o w = (Blocked, o, waiting 1 (start_frame e w) w) /\
   (forall energy_wh power_w current_a voltage_v temperature_c,
      send_meter_values energy_wh power_w current_a voltage_v temperature_c e o w =
      (Blocked, o,
       waiting 1 (meter_values_frame e o w energy_wh power_w
                    current_a voltage_v temperature_c) w)) /\
   (forall meter_stop,
      truthy (transaction_id o) = true ->
      stop_transaction meter_stop e o w =
      (Blocked, o, waiting 1 (stop_frame e o w meter_stop) w))) /\
  (inbox e (n_recv w) = Closed ->
   fst (send_boot_notification e o w) = (Raise ConnectionClosed, o) /\
   fst (start_transaction e o w) = (Raise ConnectionClosed, o) /\
   (forall energy_wh power_w current_a voltage_v temperature_c,
      fst (send_meter_values energy_wh power_w current_a voltage_v temperature_c e o w)
      = (Raise ConnectionClosed, o)) /\
   (forall meter_stop,
      truthy (transaction_id o) = true ->
      fst (stop_transaction meter_stop e o w) = (Raise ConnectionClosed, o))).
Proof.
  split; intros Hr; repeat split; intros;
    unfold send_boot_notification, start_transaction, send_meter_values,
      stop_transaction, bind, new_request_id, timestamp_now, ask_env, get_self,
      ws_send, ws_recv, ret;
    cbn; try match goal with H : truthy _ = true |- _ => rewrite H; cbn end;
    rewrite Hs; cbn; rewrite Hr; reflexivity.
Qed.

Lemma simulator_calls_wait_for_ever_witness :
  start_transaction (scripted (1 # 2) []) simulator_init world0 =
  (Blocked, simulator_init,
   waiting 1 (start_frame (scripted (1 # 2) []) world0) world0).
Proof.
  apply (proj1 (simulator_calls_wait_for_ever (scripted (1 # 2) []) simulator_init
                  world0 eq_refl) eq_refl).
Defined.

(** [stop_transaction] never clears the stored id: there is no finished
    state.  After a stop that went through, a second stop sends a second
    StopTransaction for the same transaction, and a later MeterValues call
    still carries its transactionId. *)
Theorem transaction_id_is_never_cleared
    (e : env) (o : simulator) (w : world) (first : num) (t1 t2 : option pyval)
    (Hactive : truthy (transaction_id o) = true)
    (Hs1 : send_ok e (n_send w) = true)
    (Hr1 : inbox e (n_recv w) = Text t1)
    (Hs2 : send_ok e (S (n_send w)) = true)
    (Hr2 : inbox e (S (n_recv w)) = Text t2) :
  let w1 := after_stamped_call (stop_frame e o w first) w in
  stop_transaction first e o w = (Ret tt, o, w1) /\
  (forall second,
     stop_twice first second e o w =
     (Ret tt, o, after_stamped_call (stop_frame e o w1 second) w1)) /\
  (forall energy_wh power_w current_a voltage_v temperature_c,
     exists payload,
       stop_then_report first energy_wh power_w current_a voltage_v temperature_c e o w =
       (Ret tt, o,
        after_stamped_call
          (call_frame (uuid4 e (S (n_uuid w))) "MeterValues" (PDict payload)) w1) /\
       dict_lookup payload "transactionId" = Some (transaction_id o)).
Proof.
  intros w1.
  assert (H1 : stop_transaction first e o w = (Ret tt, o, w1))
    by (apply (stop_transaction_delivered e o w first t1 Hactive Hs1 Hr1)).
  split; [exact H1 | split].
  - intros second. unfold stop_twice, bind. rewrite H1.
    apply (stop_transaction_delivered e o w1 second t2 Hactive Hs2 Hr2).
  - intros energy_wh power_w current_a voltage_v temperature_c.
    unfold stop_then_report, bind. rewrite H1.
    rewrite (send_meter_values_delivered e o w1 t2 _ _ _ _ _ Hs2 Hr2).
    unfold meter_values_frame.
    destruct (message_data_meter_value (utcnow e (n_utc w1) ++ "Z")
                (sampled_values_of (py_str e) energy_wh power_w
                   current_a voltage_v temperature_c)
                (transaction_id o)) as (payload & -> & _ & _ & Htid).
    exists payload. split; [reflexivity |]. now rewrite Htid, Hactive.
Qed.

Lemma transaction_id_is_never_cleared_witness :
  stop_twice (NInt 1500) (NInt 1600) (steady (1 # 2) (PDict []))
    {| transaction_id := PInt 7 |} world0 =
  (Ret tt, {| transaction_id := PInt 7 |},
   after_stamped_call
     (stop_frame (steady (1 # 2) (PDict [])) {| transaction_id := PInt 7 |}
        (after_stamped_call
           (stop_frame (steady (1 # 2) (PDict [])) {| transaction_id := PInt 7 |}
              world0 (NInt 1500)) world0)
        (NInt 1600))
     (after_stamped_call
        (stop_frame (steady (1 # 2) (PDict [])) {| transaction_id := PInt 7 |}
           world0 (NInt 1500)) world0)).
Proof.
  apply (proj1 (proj2 (transaction_id_is_never_cleared (steady (1 # 2) (PDict []))
                         {| transaction_id := PInt 7 |} world0 (NInt 1500)
                         (Some (PDict [])) (Some (PDict []))
                         eq_refl eq_refl eq_refl eq_refl eq_refl))).
Defined.

(** ** Ranges of the readings *)

Local Open Scope Q_scope.








(** ** Bounds on the energy *)







(** ** The whole session *)

Lemma charging_loop_run (e : env) (o : simulator)
    (start_time duration_seconds interval_seconds : Q) :
  (forall k, send_ok e k = true) ->
  (forall k, exists t, inbox e k = Text t) ->
  forall n fuel energy_wh w,
    (n < fuel)%nat ->
    (forall j, (j < n)%nat ->
               time_time e (j + n_time w) - start_time < duration_seconds) ->
    duration_seconds <= time_time e (n + n_time w) - start_time ->
    charging_loop fuel start_time duration_seconds interval_seconds energy_wh e o w =
    (Ret (energy_after e interval_seconds (n_rand w) energy_wh n), o,
     clock_read (after_ticks e o interval_seconds n energy_wh w)).
Proof.
  intros Hsend Hrecv.
  induction n as [| n IH]; intros [| fuel] energy_wh w Hfuel Hrun Hend; try lia.
  - cbn [charging_loop]. unfold bind, time_now.
    destruct (negb (Qle_bool duration_seconds (time_time e (n_time w) - start_time)))
      eqn:Hg; [| reflexivity].
    apply loop_guard in Hg. cbn [Nat.add] in Hend. lra.
  - cbn [charging_loop]. unfold bind at 1, time_now.
    assert (Hg : negb (Qle_bool duration_seconds (time_time e (n_time w) - start_time))
                 = true) by (apply loop_guard, (Hrun 0%nat); lia).
    rewrite Hg. unfold bind. fold (clock_read w).
    destruct (Hrecv (n_recv (clock_read w))) as [t Ht].
    rewrite (charging_tick_delivered e o (clock_read w) interval_seconds energy_wh t
               (Hsend _) Ht).
    cbn [energy_after after_ticks].
    apply (IH fuel _ (after_tick e o (clock_read w) interval_seconds energy_wh)).
    + lia.
    + intros j Hj. cbn [after_tick log after_stamped_call n_time clock_read].
      rewrite Nat.add_succ_r. apply (Hrun (S j)). lia.
    + cbn [after_tick log after_stamped_call n_time clock_read].
      rewrite Nat.add_succ_r. exact Hend.
Qed.

(** What [n] passes through the loop do to the world: [n] ids, [n]
    timestamps, [n] sends and receives, [3 n] random numbers, [n] readings
    of the clock, and [2 n] events, alternately a MeterValues call and a
    sleep. *)
Lemma after_ticks_effects (e : env) (o : simulator) (i : Q) :
  forall n energy_wh w,
    let w' := after_ticks e o i n energy_wh w in
    n_uuid w' = (n + n_uuid w)%nat /\
    n_utc w' = (n + n_utc w)%nat /\
    n_time w' = (n + n_time w)%nat /\
    n_rand w' = (3 * n + n_rand w)%nat /\
    n_send w' = (n + n_send w)%nat /\
    n_recv w' = (n + n_recv w)%nat /\
    exists events,
      trace w' = (trace w ++ events)%list /\
      length events = (2 * n)%nat /\
      length (filter (sends_action "MeterValues") events) = n /\
      length (filter is_sleep events) = n /\
      forallb (fun ev => sends_action "MeterValues" ev || is_sleep ev) events = true.
Proof.
  induction n as [| n IH]; intros energy_wh w; cbv zeta.
  - cbn [after_ticks]. repeat split; try reflexivity.
    exists []. rewrite app_nil_r. repeat split; reflexivity.
  - cbn [after_ticks].
    destruct (IH (energy_wh + power_drawn e (n_rand w) * i / 3600)
                (after_tick e o (clock_read w) i energy_wh))
      as (Hu & Ht & Hc & Hr & Hs & Hv & events & Htr & Hlen & Hmv & Hsl & Hall).
    cbn [after_tick log after_stamped_call clock_read n_uuid n_utc n_time n_rand
         n_send n_recv trace] in *.
    rewrite Hu, Ht, Hc, Hr, Hs, Hv.
    repeat split; try lia.
    eexists (_ :: _ :: events). split.
    + rewrite Htr, <- !app_assoc. reflexivity.
    + assert (Hframe : forall a b c d f,
                sends_action "MeterValues"
                  (EvSend (meter_values_frame e o
                             (clock_read
                                {| n_uuid := n_uuid w; n_utc := n_utc w;
                                   n_time := n_time w;
                                   n_rand := S (S (S (n_rand w)));
                                   n_send := n_send w; n_recv := n_recv w;
                                   trace := trace w |}) a b c d f)) = true).
      { intros. unfold meter_values_frame, message_data_of, call_frame.
        destruct (truthy (transaction_id o)); reflexivity. }
      cbn [length filter is_sleep].
      unfold clock_read in Hframe. cbn [n_uuid n_utc n_time n_rand n_send n_recv trace]
        in Hframe.
      cbn [forallb]. rewrite Hframe. cbn [length is_sleep orb andb].
      assert (Hnosend : forall q, sends_action "MeterValues" (EvSleep q) = false)
        by reflexivity.
      rewrite Hnosend. repeat split; try lia. exact Hall.
Qed.

Lemma ticks_send_no_stop (events : list event) :
  forallb (fun ev => sends_action "MeterValues" ev || is_sleep ev) events = true ->
  filter (sends_action "StopTransaction") events = [].
Proof.
  induction events as [| ev events IH]; [reflexivity |].
  cbn [forallb filter]. intros H. apply andb_true_iff in H as [Hev Hall].
  assert (Hno : sends_action "StopTransaction" ev = false).
  { unfold sends_action in *. destruct ev as [msg | q]; [| reflexivity].
    cbn [is_sleep] in Hev. rewrite orb_false_r in Hev.
    destruct (action_of (EvSend msg)) as [a |]; [| reflexivity].
    apply String.eqb_eq in Hev. subst a. reflexivity. }
  rewrite Hno. apply IH, Hall.
Qed.

Lemma session_loop_world (e : env) (o : simulator) (i : Q) (n : nat) (w : world) :
  let w1 := after_stamped_call (start_frame e w) w in
  let w2 := clock_read (after_ticks e o i n 1000 (clock_read w1)) in
  n_uuid w2 = (S n + n_uuid w)%nat /\
  n_utc w2 = (S n + n_utc w)%nat /\
  n_send w2 = (S n + n_send w)%nat /\
  n_recv w2 = (S n + n_recv w)%nat /\
  exists events,
    trace w2 = (trace w ++ [EvSend (start_frame e w)] ++ events)%list /\
    length events = (2 * n)%nat /\
    length (filter (sends_action "MeterValues") events) = n /\
    length (filter is_sleep events) = n /\
    filter (sends_action "StopTransaction") events = [].
Proof.
  intros w1 w2.
  destruct (after_ticks_effects e o i n 1000 (clock_read w1))
    as (Hu & Ht & _ & _ & Hs & Hv & events & Htr & Hlen & Hmv & Hsl & Hall).
  unfold w2. cbn [clock_read n_uuid n_utc n_send n_recv trace].
  rewrite Hu, Ht, Hs, Hv, Htr.
  unfold w1. cbn [clock_read after_stamped_call n_uuid n_utc n_send n_recv trace].
  repeat split; try lia.
  exists events. rewrite <- app_assoc. repeat split; try assumption.
  apply ticks_send_no_stop, Hall.
Qed.

Lemma simulate_charging_session_started
    (e : env) (o : simulator) (w : world) (fuel n : nat)
    (duration_seconds interval_seconds : Q)
    (f0 : pyval) (payload : list (string * pyval)) (tid : pyval)
    (Hsend : forall k, send_ok e k = true)
    (Hrecv : forall k, exists t, inbox e k = Text t)
    (Hstart : inbox e (n_recv w) = Text (Some f0))
    (Hframe : result_frame f0 payload)
    (Htid : dict_lookup payload "transactionId" = Some tid)
    (Hactive : truthy tid = true)
    (Hfuel : (n < fuel)%nat)
    (Hrun : forall j, (j < n)%nat ->
              (time_time e (S j + n_time w) - time_time e (n_time w)
               < duration_seconds)%Q)
    (Hend : (duration_seconds
             <= time_time e (S n + n_time w) - time_time e (n_time w))%Q) :
  exists w' events,
    simulate_charging_session fuel duration_seconds interval_seconds e o w =
      (Ret tt, {| transaction_id := tid |}, w') /\
    trace w' =
      (trace w ++ [EvSend (start_frame e w)] ++ events ++
       [EvSend
          (call_frame (uuid4 e (S n + n_uuid w)) "StopTransaction"
             (PDict [("transactionId", tid);
                     ("meterStop",
                      PInt (py_int (energy_after e interval_seconds (n_rand w) 1000 n)));
                     ("timestamp", PStr (utcnow e (S n + n_utc w) ++ "Z"))]))])%list /\
    length events = (2 * n)%nat /\
    length (filter (sends_action "MeterValues") events) = n /\
    length (filter is_sleep events) = n.
Proof.
  set (o1 := {| transaction_id := tid |}).
  set (w1 := after_stamped_call (start_frame e w) w).
  set (w2 := clock_read (after_ticks e o1 interval_seconds n 1000 (clock_read w1))).
  destruct (session_loop_world e o1 interval_seconds n w)
    as (Hu & Ht & Hs & Hv & events & Htr & Hlen & Hmv & Hsl & _).
  fold w1 in Hu, Ht, Hs, Hv, Htr. fold w2 in Hu, Ht, Hs, Hv, Htr.
  assert (Hstarted : start_transaction e o w = (Ret true, o1, w1)).
  { rewrite (start_transaction_answered e o w f0 (conj (Hsend _) Hstart)).
    destruct Hframe as (x & id & rest & -> & Hx). cbn. now rewrite Hx, Htid. }
  assert (Hloop :
    charging_loop fuel (time_time e (n_time w)) duration_seconds interval_seconds
      1000 e o1 (clock_read w1) =
    (Ret (energy_after e interval_seconds (n_rand w) 1000 n), o1, w2)).
  { apply (charging_loop_run e o1 _ _ _ Hsend Hrecv n fuel 1000 (clock_read w1) Hfuel).
    - intros j Hj. cbn [clock_read n_time w1 after_stamped_call].
      rewrite Nat.add_succ_r. apply Hrun, Hj.
    - cbn [clock_read n_time w1 after_stamped_call].
      rewrite Nat.add_succ_r. exact Hend. }
  destruct (Hrecv (n_recv w2)) as [t Hanswer].
  exists (after_stamped_call
            (stop_frame e o1 w2
               (NInt (py_int (energy_after e interval_seconds (n_rand w) 1000 n)))) w2),
    events.
  split; [| split; [| repeat split; assumption]].
  - unfold simulate_charging_session, bind, time_now. rewrite Hstarted.
    fold (clock_read w1). cbn [n_time w1 after_stamped_call].
    change (clock_read (after_stamped_call (start_frame e w) w)) with (clock_read w1).
    rewrite Hloop.
    apply (stop_transaction_delivered e o1 w2 _ t Hactive (Hsend _) Hanswer).
  - cbn [after_stamped_call trace]. rewrite Htr. unfold stop_frame.
    rewrite Hu, Ht. cbn [transaction_id o1 num_val]. rewrite <- !app_assoc.
    reflexivity.
Qed.




Local Close Scope Q_scope.

(** ** Restoring the changed value *)




(** ** What every check records *)

(** Each of the eight checks always ends, whatever the server does.  When
    it returns True it has added exactly one entry, a pass under its own
    name; when it returns False it has added either nothing or one failure
    under its own name; when it raises it has added nothing. *)
Theorem every_check_records_under_its_name
    (e : env) (o : validator) (w : world) :
  length tests = length test_names /\
  forall name test,
    In (name, test) (combine test_names tests) -> records name o (test e o w).
Proof.
  split; [reflexivity |].
  intros name test Hin. apply (proj2 tests_named name test Hin).
Qed.

Lemma every_check_records_under_its_name_witness :
  records "Configuration persistence"
    validator_init
    (test_persistence (scripted (1 # 2) [status_frame "call-0" "Rejected"])
       validator_init world0).
Proof.
  apply (proj2 (every_check_records_under_its_name
                  (scripted (1 # 2) [status_frame "call-0" "Rejected"])
                  validator_init world0)).
  cbn. do 7 right. left. reflexivity.
Defined.

(** ** Sample sessions *)

Local Open Scope Q_scope.



Local Close Scope Q_scope.

(** ** The scripted run *)

Lemma send_boot_notification_delivered
    (e : env) (o : simulator) (w : world) (t : option pyval) :
  send_ok e (n_send w) = true ->
  inbox e (n_recv w) = Text t ->
  send_boot_notification e o w = (Ret tt, o, after_call (boot_frame e w) w).
Proof.
  intros Hs Hr.
  unfold send_boot_notification, bind, new_request_id, ws_send, ws_recv, ret.
  cbn. rewrite Hs. cbn. rewrite Hr. reflexivity.
Qed.

Lemma meter_values_action (e : env) (o : simulator) (w : world)
    (energy_wh power_w : num) (current_a voltage_v temperature_c : option num) :
  action_of (EvSend (meter_values_frame e o w energy_wh power_w
                       current_a voltage_v temperature_c)) = Some "MeterValues".
Proof.
  unfold meter_values_frame, message_data_of.
  destruct (truthy (transaction_id o)); reflexivity.
Qed.

(** [run_tests] on an open connection, when every exchange goes through,
    StartTransaction is answered by a result with a truthy transactionId
    and the clock lets [n] ticks through the thirty seconds: it sends
    BootNotification, the single sample, StartTransaction, [n] MeterValues
    calls with their sleeps, StopTransaction, and last the high-power
    sample.  That last call comes after the stop and still carries the
    transactionId of the stopped transaction; it has four sampled values,
    none for the temperature. *)
Theorem run_tests_alert_follows_the_stop
    (e : env) (o : simulator) (w : world) (fuel n : nat)
    (f0 : pyval) (payload : list (string * pyval)) (tid : pyval)
    (Hsend : forall k, send_ok e k = true)
    (Hrecv : forall k, exists t, inbox e k = Text t)
    (Hstart : inbox e (S (S (n_recv w))) = Text (Some f0))
    (Hframe : result_frame f0 payload)
    (Htid : dict_lookup payload "transactionId" = Some tid)
    (Hactive : truthy tid = true)
    (Hfuel : (n < fuel)%nat)
    (Hrun : forall j, (j < n)%nat ->
              (time_time e (S j + n_time w) - time_time e (n_time w) < 30)%Q)
    (Hend : (30 <= time_time e (S n + n_time w) - time_time e (n_time w))%Q) :
  exists w' first start events stop id stamp fields,
    run_tests fuel e o w = (Ret tt, {| transaction_id := tid |}, w') /\
    trace w' =
      (trace w ++ [EvSend (boot_frame e w); EvSend first; EvSend start] ++ events ++
       [EvSend stop; EvSend (call_frame id "MeterValues" (PDict fields))])%list /\
    action_of (EvSend first) = Some "MeterValues" /\
    action_of (EvSend start) = Some "StartTransaction" /\
    action_of (EvSend stop) = Some "StopTransaction" /\
    length events = (2 * n)%nat /\
    length (filter (sends_action "MeterValues") events) = n /\
    length (filter is_sleep events) = n /\
    dict_lookup fields "transactionId" = Some tid /\
    dict_lookup fields "meterValue" =
      Some (PList
              [PDict [("timestamp", PStr stamp);
                      ("sampledValue",
                       PList [sampled "10000" "Energy.Active.Import.Register" "Wh";
                              sampled "55000" "Power.Active.Import" "W";
                              sampled "240" "Current.Import" "A";
                              sampled "230" "Voltage" "V"])]]).
Proof.
  set (o1 := {| transaction_id := tid |}).
  set (wa := after_call (boot_frame e w) w).
  set (first := meter_values_frame e o wa (NInt 5000) (NInt 3700)
                  (Some (NInt 16)) (Some (NInt 230)) (Some (NInt 25))).
  set (wb := after_stamped_call first wa).
  destruct (Hrecv (n_recv w)) as [t0 H0].
  destruct (Hrecv (n_recv wa)) as [t1 H1].
  destruct (simulate_charging_session_started e o wb fuel n 30 5 f0 payload tid
              Hsend Hrecv Hstart Hframe Htid Hactive Hfuel Hrun Hend)
    as (w' & events & Hsession & Htrace & Hlen & Hmv & Hsl).
  destruct (Hrecv (n_recv w')) as [t2 H2].
  destruct (message_data_meter_value (utcnow e (n_utc w') ++ "Z")
              (sampled_values_of (py_str e) (NInt 10000) (NInt 55000)
                 (Some (NInt 240)) (Some (NInt 230)) None)
              tid) as (fields & Hfields & _ & Hmeter & Hid).
  eexists _, first, (start_frame e wb), events, _, (uuid4 e (n_uuid w')),
    (utcnow e (n_utc w') ++ "Z")%string, fields.
  split; [| split; [| split; [| split; [| split; [| split; [| split; [| split;
    [| split]]]]]]]].
  - unfold run_tests, bind.
    rewrite (send_boot_notification_delivered e o w t0 (Hsend _) H0). fold wa.
    rewrite (send_meter_values_delivered e o wa t1 _ _ _ _ _ (Hsend _) H1).
    fold first. fold wb. rewrite Hsession.
    rewrite (send_meter_values_delivered e o1 w' t2 _ _ _ _ _ (Hsend _) H2).
    unfold meter_values_frame. cbn [transaction_id o1]. rewrite Hfields.
    reflexivity.
  - cbn [after_stamped_call trace]. rewrite Htrace.
    unfold wb, wa. cbn [after_stamped_call after_call trace].
    rewrite <- !app_assoc. reflexivity.
  - apply meter_values_action.
  - reflexivity.
  - reflexivity.
  - exact Hlen.
  - exact Hmv.
  - exact Hsl.
  - now rewrite Hid, Hactive.
  - rewrite Hmeter. reflexivity.
Qed.

Lemma run_tests_alert_follows_the_stop_witness :
  exists w',
    run_tests 10 (steady (1 # 2) (started_frame "any" (PInt 7)))
      simulator_init world0 =
    (Ret tt, {| transaction_id := PInt 7 |}, w').
Proof.
  destruct (run_tests_alert_follows_the_stop
              (steady (1 # 2) (started_frame "any" (PInt 7))) simulator_init world0
              10 5 (started_frame "any" (PInt 7))
              [("transactionId", PInt 7)] (PInt 7))
    as (w' & first & start & events & stop & id & stamp & fields & Hrun & _).
  - intros k. reflexivity.
  - intros k. exists (Some (started_frame "any" (PInt 7))). reflexivity.
  - reflexivity.
  - exists (PInt 3), (PStr "any"), []. split; reflexivity.
  - reflexivity.
  - reflexivity.
  - lia.
  - intros j Hj.
    destruct j as [| [| [| [| [| j]]]]];
      [reflexivity | reflexivity | reflexivity | reflexivity | reflexivity | lia].
  - apply Qle_bool_imp_le. reflexivity.
  - exists w'. exact Hrun.
Defined.

(** ** Sample runs of the validator *)

Lemma validator_calls_never_raise_witness :
  exists r w',
    send_change_configuration "HeartbeatInterval" (PStr "900") (scripted (1 # 2) [])
      validator_init world0 = (Ret r, validator_init, w') /\
    r = PDict [].
Proof.
  destruct (proj2 (validator_calls_never_raise (scripted (1 # 2) []) validator_init
                     world0) "HeartbeatInterval" (PStr "900"))
    as (r & w' & Hrun & _ & [[_ Habs] | [Hr _]]).
  - discriminate Habs.
  - exists r, w'. split; [exact Hrun | exact Hr].
Defined.

